(** * Certificate control of tidb-operator: a shallow embedding

    The development models [pkg/controller/cert_control.go] and
    [pkg/util/crypto/certs.go].  Go functions become functions of a state
    and error monad over a [World]: the part of the cluster the controller
    talks to (the secrets, the certificate signing requests, the failures
    of the backend, the random source, what the watches will deliver) and
    the process log.  Cryptography, PEM, IP parsing, the label constants
    and the reading of the trusted roots are not part of the two source
    files; they are the fields of [Env].

    [sendCSR] calls itself; its model takes the depth it may use, and so
    does [Create].  [sendCSR_two_levels] and [Create_two_levels] show that
    depth 2 is all they ever use. *)

From Stdlib Require Import String List Bool Arith ZArith Lia.
From stdpp Require Import base option strings gmap.
Import ListNotations.
Local Open Scope string_scope.

(** ** Data *)

(** A Go [[]byte]. *)
Definition bytes := list Byte.byte.

(** A Go [error]: its message, and whether [apierrors.IsNotFound] holds. *)
Record error := mkError { Error : string; IsNotFound : bool }.

(** [fmt.Errorf]: the formatted message is built by the caller. *)
Definition Errorf (msg : string) : error :=
  {| Error := msg; IsNotFound := false |}.

(** The quotation mark the API server puts around names. *)
Definition quote : string := String (Ascii.ascii_of_nat 34) EmptyString.

(** The status error the API server answers for a missing object. *)
Definition NewNotFound (kind name : string) : error :=
  {| Error := kind +:+ " " +:+ quote +:+ name +:+ quote +:+ " not found";
     IsNotFound := true |}.

(** The status error the API server answers for a name already taken. *)
Definition NewAlreadyExists (kind name : string) : error :=
  {| Error := kind +:+ " " +:+ quote +:+ name +:+ quote +:+ " already exists";
     IsNotFound := false |}.

(** [m[k]] on a Go [map[string]string]: the zero value when [k] is absent. *)
Definition label_get (m : gmap string string) (k : string) : string :=
  default "" (m !! k).

(** [m[k]] on a Go [map[string][]byte]. *)
Definition data_get (m : gmap string bytes) (k : string) : bytes :=
  default [] (m !! k).

(** [capi.RequestConditionType] is a string type. *)
Definition CertificateApproved : string := "Approved".
Definition CertificateDenied : string := "Denied".

(** [capi.KeyUsage] is a string type. *)
Definition UsageClientAuth : string := "client auth".
Definition UsageServerAuth : string := "server auth".

Record CertificateSigningRequestCondition := mkCondition {
  Type_ : string;
  Reason : string;
  Message : string }.

(** [Certificate] is a slice that may be nil: [None] is nil. *)
Record CertificateSigningRequestStatus := mkStatus {
  Conditions : list CertificateSigningRequestCondition;
  Certificate : option bytes }.

Record CertificateSigningRequestSpec := mkSpec {
  Request : bytes;
  Usages : list string }.

Record CertificateSigningRequest := mkCSR {
  Name : string;
  UID : nat;
  Labels : gmap string string;
  Spec : CertificateSigningRequestSpec;
  Status : CertificateSigningRequestStatus }.

Record Secret := mkSecret {
  secretName : string;
  secretLabels : gmap string string;
  Data : gmap string bytes }.

(** The object of a watch event is a [runtime.Object]: the resource the
    event is about, or, on an event of type ERROR, a [*metav1.Status]. *)
Inductive runtimeObject :=
| CSRObject (csr : CertificateSigningRequest)
| StatusObject (message : string).

Record WatchEvent := mkEvent {
  EventType : string;
  Object : runtimeObject }.

(** What the select statement of [Create] can be woken by, in the order
    it happens: ten more seconds have gone by, or the watch channel
    delivers an event.  The end of the list is the server closing the
    channel. *)
Inductive occurrence :=
| TenSeconds
| Event (event : WatchEvent).

(** [net.IP] is a byte slice; [None] is the nil address [net.ParseIP]
    answers for a string that is no address. *)
Definition IP := option bytes.

Record pkixName := mkName {
  Organization : list string;
  OrganizationalUnit : list string;
  CommonName : string }.

Record CertificateRequest := mkCertificateRequest {
  Subject : pkixName;
  DNSNames : list string;
  IPAddresses : list IP }.

(** Keys, parsed certificates and pools are opaque to the controller: only
    the functions of [Env] look into them. *)
Definition PrivateKey := bytes.
Definition x509Certificate := bytes.
Definition CertPool := list bytes.

Definition ExtKeyUsageClientAuth : string := "ExtKeyUsageClientAuth".
Definition ExtKeyUsageServerAuth : string := "ExtKeyUsageServerAuth".

Record VerifyOptions := mkVerifyOptions {
  Roots : CertPool;
  KeyUsages : list string }.

(** ** The environment

    Everything the two source files import and do not define. *)
Record Env := mkEnv {
  (* pkg/label *)
  NamespaceLabelKey : string;
  ManagedByLabelKey : string;
  InstanceLabelKey : string;
  ComponentLabelKey : string;
  label_New : gmap string string;
  (* net *)
  net_ParseIP : string -> IP;
  (* crypto/rsa: the n-th draw from rand.Reader, for a key of some size *)
  rsa_GenerateKey : nat -> nat -> PrivateKey + error;
  (* crypto/x509 *)
  x509_CreateCertificateRequest : CertificateRequest -> PrivateKey -> bytes + error;
  x509_MarshalPKCS1PrivateKey : PrivateKey -> bytes;
  x509_ParseCertificate : bytes -> x509Certificate + error;
  x509_Verify : x509Certificate -> VerifyOptions -> option error;
  (* crypto/tls *)
  tls_X509KeyPair : bytes -> bytes -> option error;
  (* encoding/pem: block type and bytes *)
  pem_EncodeToMemory : string -> bytes -> bytes;
  pem_Decode : bytes -> option bytes;
  (* pkg/util/crypto, in a file that is not part of the sources at hand *)
  ReadCACerts : CertPool + error }.

(** ** The world *)
Record World := mkWorld {
  secrets : gmap (string * string) Secret;
  csrs : gmap string CertificateSigningRequest;
  nextUID : nat;
  faults : list (option string);
  keysDrawn : nat;
  timelines : list (list occurrence);
  glog : list string }.

Definition set_secrets (s : gmap (string * string) Secret) (w : World) : World :=
  mkWorld s (csrs w) (nextUID w) (faults w) (keysDrawn w) (timelines w) (glog w).

Definition set_csrs (c : gmap string CertificateSigningRequest) (w : World) : World :=
  mkWorld (secrets w) c (nextUID w) (faults w) (keysDrawn w) (timelines w) (glog w).

Definition set_nextUID (n : nat) (w : World) : World :=
  mkWorld (secrets w) (csrs w) n (faults w) (keysDrawn w) (timelines w) (glog w).

Definition set_faults (f : list (option string)) (w : World) : World :=
  mkWorld (secrets w) (csrs w) (nextUID w) f (keysDrawn w) (timelines w) (glog w).

Definition set_keysDrawn (n : nat) (w : World) : World :=
  mkWorld (secrets w) (csrs w) (nextUID w) (faults w) n (timelines w) (glog w).

Definition set_timelines (t : list (list occurrence)) (w : World) : World :=
  mkWorld (secrets w) (csrs w) (nextUID w) (faults w) (keysDrawn w) t (glog w).

(** [glog] keeps the lines in the order they were written. *)
Definition set_glog (l : list string) (w : World) : World :=
  mkWorld (secrets w) (csrs w) (nextUID w) (faults w) (keysDrawn w) (timelines w) l.

(** ** The monad of Go calls

    A call returns a value, returns a non-nil error, or panics; a model of a
    recursive function can also run out of the depth it was given. *)
Inductive outcome (A : Type) :=
| Ret (a : A)
| Fail (err : error)
| Panic (msg : string)
| OutOfFuel.
Arguments Ret {A} a.
Arguments Fail {A} err.
Arguments Panic {A} msg.
Arguments OutOfFuel {A}.

Definition M (A : Type) : Type := World -> outcome A * World.

Definition ret {A} (a : A) : M A := fun w => (Ret a, w).
Definition fail {A} (err : error) : M A := fun w => (Fail err, w).
Definition panic {A} (msg : string) : M A := fun w => (Panic msg, w).

Definition bind {A B} (c : M A) (k : A -> M B) : M B :=
  fun w =>
    match c w with
    | (Ret a, w') => k a w'
    | (Fail err, w') => (Fail err, w')
    | (Panic msg, w') => (Panic msg, w')
    | (OutOfFuel, w') => (OutOfFuel, w')
    end.

(** [x, err := c; if err != nil { return h err }]. *)
Definition orElse {A} (c : M A) (h : error -> error) : M A :=
  fun w =>
    match c w with
    | (Fail err, w') => (Fail (h err), w')
    | r => r
    end.

Notation "x <- c ;; k" := (bind c (fun x => k))
  (at level 100, c at next level, right associativity).
Notation "c ;;; k" := (bind c (fun _ => k))
  (at level 100, right associativity).

Definition glog_Infof (line : string) : M unit :=
  fun w => (Ret tt, set_glog (glog w ++ [line]) w).

(** ** The API server

    A model of the collaborators of the controller: [Get], [Create],
    [Delete], [UpdateApproval] and [Watch] on named resources.  Every
    request first reaches the backend, which may fail it (the next entry of
    [faults]); a request that is served acts on the stores. *)
Definition backend : M unit :=
  fun w =>
    match faults w with
    | Some msg :: rest => (Fail (Errorf msg), set_faults rest w)
    | None :: rest => (Ret tt, set_faults rest w)
    | [] => (Ret tt, w)
    end.

Definition Secrets_Get (ns name : string) : M Secret :=
  backend ;;;
  fun w =>
    match secrets w !! (ns, name) with
    | Some s => (Ret s, w)
    | None => (Fail (NewNotFound "secrets" name), w)
    end.

Definition Secrets_Create (ns : string) (secret : Secret) : M Secret :=
  backend ;;;
  fun w =>
    match secrets w !! (ns, secretName secret) with
    | Some _ => (Fail (NewAlreadyExists "secrets" (secretName secret)), w)
    | None => (Ret secret, set_secrets (<[(ns, secretName secret) := secret]> (secrets w)) w)
    end.

Definition CSR_Get (name : string) : M CertificateSigningRequest :=
  backend ;;;
  fun w =>
    match csrs w !! name with
    | Some r => (Ret r, w)
    | None => (Fail (NewNotFound "certificatesigningrequests" name), w)
    end.

(** The server gives the stored object its identity. *)
Definition CSR_Create (csr : CertificateSigningRequest) : M CertificateSigningRequest :=
  backend ;;;
  fun w =>
    match csrs w !! Name csr with
    | Some _ => (Fail (NewAlreadyExists "certificatesigningrequests" (Name csr)), w)
    | None =>
        let stored := mkCSR (Name csr) (nextUID w) (Labels csr) (Spec csr) (Status csr) in
        (Ret stored, set_nextUID (S (nextUID w)) (set_csrs (<[Name csr := stored]> (csrs w)) w))
    end.

Definition CSR_Delete (name : string) : M unit :=
  backend ;;;
  fun w =>
    match csrs w !! name with
    | Some _ => (Ret tt, set_csrs (delete name (csrs w)) w)
    | None => (Fail (NewNotFound "certificatesigningrequests" name), w)
    end.

(** The approval subresource: the stored object takes the conditions sent. *)
Definition CSR_UpdateApproval (csr : CertificateSigningRequest) : M CertificateSigningRequest :=
  backend ;;;
  fun w =>
    match csrs w !! Name csr with
    | Some r =>
        let stored :=
          mkCSR (Name r) (UID r) (Labels r) (Spec r)
                (mkStatus (Conditions (Status csr)) (Certificate (Status r))) in
        (Ret stored, set_csrs (<[Name csr := stored]> (csrs w)) w)
    | None => (Fail (NewNotFound "certificatesigningrequests" (Name csr)), w)
    end.

(** A watch that is served yields what will happen while it is open. *)
Definition CSR_Watch (name : string) (timeoutSeconds : Z) : M (list occurrence) :=
  backend ;;;
  fun w =>
    match timelines w with
    | t :: rest => (Ret t, set_timelines rest w)
    | [] => (Ret [], w)
    end.

Section Program.

Context (env : Env).

(** ** pkg/util/crypto/certs.go *)

Definition rsaKeySize : nat := 2048.

(** [newPrivateKey]: one draw from the random source. *)
Definition newPrivateKey (size : nat) : M PrivateKey :=
  fun w =>
    match rsa_GenerateKey env (keysDrawn w) size with
    | inl privateKey => (Ret privateKey, set_keysDrawn (S (keysDrawn w)) w)
    | inr err => (Fail err, set_keysDrawn (S (keysDrawn w)) w)
    end.

Definition convertKeyToPEM (blockType : string) (dataBytes : PrivateKey) : bytes :=
  pem_EncodeToMemory env blockType (x509_MarshalPKCS1PrivateKey env dataBytes).

(** The loop of [NewCSR] over [IPList]: each parsed address is appended,
    whatever [net.ParseIP] answered. *)
Definition parseIPList (IPList : list string) : list IP :=
  fold_left (fun ipAddrList ip => (ipAddrList ++ [net_ParseIP env ip])%list) IPList [].

Definition csrTemplate (commonName : string) (hostList IPList : list string)
  : CertificateRequest :=
  {| Subject := {| Organization := ["PingCAP"];
                   OrganizationalUnit := ["TiDB Operator"];
                   CommonName := commonName |};
     DNSNames := hostList;
     IPAddresses := parseIPList IPList |}.

Definition NewCSR (commonName : string) (hostList IPList : list string)
  : M (bytes * bytes) :=
  privKey <- newPrivateKey rsaKeySize ;;
  match x509_CreateCertificateRequest env (csrTemplate commonName hostList IPList) privKey with
  | inr err => fail err
  | inl csr => ret (csr, convertKeyToPEM "RSA PRIVATE KEY" privKey)
  end.

(** ** pkg/controller/cert_control.go *)

(** The name [Create] derives (lines 59 to 64). *)
Definition csrNameOf (instance suffix : string) : string :=
  if String.eqb suffix "" then instance else instance +:+ "-" +:+ suffix.

(** The name [SaveToSecret] derives (line 248). *)
Definition secretNameOf (instance suffix : string) : string :=
  instance +:+ "-" +:+ suffix.

Definition LoadFromSecret (ns secretName : string) : M (bytes * bytes) :=
  secret <- Secrets_Get ns secretName ;;
  ret (data_get (Data secret) "cert", data_get (Data secret) "key").

Definition SaveToSecret (ns instance component suffix : string) (cert key : bytes)
  : M unit :=
  let secretName := secretNameOf instance suffix in
  let labels0 : gmap string string := ∅ in
  let data : gmap string bytes := <["key" := key]> (<["cert" := cert]> ∅) in
  let labels1 := <[NamespaceLabelKey env := ns]> labels0 in
  let labels2 :=
    <[ManagedByLabelKey env := label_get (label_New env) (ManagedByLabelKey env)]> labels1 in
  let labels3 := <[InstanceLabelKey env := instance]> labels2 in
  let labels4 := <[ComponentLabelKey env := component]> labels3 in
  let secret := mkSecret secretName labels4 data in
  fun w =>
    let '(r, w1) := Secrets_Create ns secret w in
    let shown := match r with Fail err => Error err | _ => "<nil>" end in
    let w2 := set_glog (glog w1 ++ ["save cert to secret " +:+ ns +:+ "/" +:+ secretName
                                     +:+ ", error: " +:+ shown]) w1 in
    match r with
    | Ret _ => (Ret tt, w2)
    | Fail err => (Fail err, w2)
    | Panic msg => (Panic msg, w2)
    | OutOfFuel => (OutOfFuel, w2)
    end.

(** The checks of [CheckSecret] on the two fields of a secret that was
    read (lines 280 to 316): [None] when all pass, else the line logged. *)
Definition validate (ns secretName : string) (certBytes keyBytes : bytes) : option string :=
  let head := "certificate validation failed for [" +:+ ns +:+ "/" +:+ secretName +:+ "], " in
  match pem_Decode env certBytes with
  | None => Some (head +:+ "can not decode cert to PEM%!(EXTRA <nil>)")
  | Some block =>
      match x509_ParseCertificate env block with
      | inr err => Some (head +:+ "can not parse cert, " +:+ Error err)
      | inl cert =>
          match ReadCACerts env with
          | inr err => Some (head +:+ "error loading CAs, " +:+ Error err)
          | inl rootCAs =>
              let verifyOpts :=
                {| Roots := rootCAs;
                   KeyUsages := [ExtKeyUsageClientAuth; ExtKeyUsageServerAuth] |} in
              match x509_Verify env cert verifyOpts with
              | Some err => Some (head +:+ Error err)
              | None =>
                  match tls_X509KeyPair env certBytes keyBytes with
                  | Some err => Some (head +:+ "error loading key pair, " +:+ Error err)
                  | None => None
                  end
              end
          end
      end
  end.

(** [CheckSecret] answers a boolean, and nothing else. *)
Definition CheckSecret (ns secretName : string) (w : World) : bool * World :=
  match LoadFromSecret ns secretName w with
  | (Ret (certBytes, keyBytes), w1) =>
      match validate ns secretName certBytes keyBytes with
      | Some line => (false, set_glog (glog w1 ++ [line]) w1)
      | None => (true, w1)
      end
  | (_, w1) => (false, w1)
  end.

(** The test of [getCSR] on the labels of the resource it found. *)
Definition owned (ns instance : string) (csr : CertificateSigningRequest) : bool :=
  String.eqb (label_get (Labels csr) (NamespaceLabelKey env)) ns
  && String.eqb (label_get (Labels csr) (ManagedByLabelKey env))
                (label_get (label_New env) (ManagedByLabelKey env))
  && String.eqb (label_get (Labels csr) (InstanceLabelKey env)) instance.

(** [getCSR]: [Ret None] is the pair of nils. *)
Definition getCSR (ns instance csrName : string) : M (option CertificateSigningRequest) :=
  fun w =>
    match CSR_Get csrName w with
    | (Fail err, w1) =>
        if IsNotFound err then (Ret None, w1) else (Fail err, w1)
    | (Ret csr, w1) =>
        if owned ns instance csr then (Ret (Some csr), w1)
        else (Fail (Errorf ("CSR " +:+ ns +:+ "/" +:+ csrName
                            +:+ " already exist, but not created by tidb-operator, skip it")), w1)
    | (Panic msg, w1) => (Panic msg, w1)
    | (OutOfFuel, w1) => (OutOfFuel, w1)
    end.

(** The resource [sendCSR] builds (lines 181 to 203). *)
Definition newRequest (ns instance : string) (rawCSR : bytes) (csrName : string)
  : CertificateSigningRequest :=
  let labels0 : gmap string string := ∅ in
  let labels1 := <[NamespaceLabelKey env := ns]> labels0 in
  let labels2 :=
    <[ManagedByLabelKey env := label_get (label_New env) (ManagedByLabelKey env)]> labels1 in
  let labels3 := <[InstanceLabelKey env := instance]> labels2 in
  {| Name := csrName;
     UID := 0;
     Labels := labels3;
     Spec := {| Request := pem_EncodeToMemory env "CERTIFICATE REQUEST" rawCSR;
                Usages := [UsageClientAuth; UsageServerAuth] |};
     Status := {| Conditions := []; Certificate := None |} |}.

(** [sendCSR] calls itself after it deleted a resource of its own; [fuel]
    bounds the depth of these calls. *)
Fixpoint sendCSR (fuel : nat) (ns instance : string) (rawCSR : bytes) (csrName : string)
  : M CertificateSigningRequest :=
  match fuel with
  | O => fun w => (OutOfFuel, w)
  | S fuel' =>
      let place := "[" +:+ ns +:+ "/" +:+ instance +:+ "]: " +:+ csrName in
      csr <- orElse (getCSR ns instance csrName)
               (fun err => Errorf ("failed to create CSR for " +:+ place
                                   +:+ ", error: " +:+ Error err)) ;;
      match csr with
      | Some _ =>
          glog_Infof ("found exist CSR " +:+ ns +:+ "/" +:+ csrName
                      +:+ " created by tidb-operator, overwriting") ;;;
          orElse (CSR_Delete csrName)
            (fun err => Errorf ("failed to delete exist old CSR for " +:+ place
                                +:+ ", error: " +:+ Error err)) ;;;
          glog_Infof ("exist old CSR deleted for " +:+ place) ;;;
          sendCSR fuel' ns instance rawCSR csrName
      | None =>
          resp <- orElse (CSR_Create (newRequest ns instance rawCSR csrName))
                    (fun err => Errorf ("failed to create CSR for " +:+ place
                                        +:+ ", error: " +:+ Error err)) ;;
          glog_Infof ("CSR created for " +:+ place) ;;;
          ret resp
      end
  end.

(** [approveCSR] appends to the conditions of the object its caller holds:
    the caller sees the object as returned here. *)
Definition approveCSR (csr : CertificateSigningRequest) : M CertificateSigningRequest :=
  let approved :=
    {| Type_ := CertificateApproved;
       Reason := "AutoApproved";
       Message := "Auto approved by TiDB Operator" |} in
  let csr' :=
    mkCSR (Name csr) (UID csr) (Labels csr) (Spec csr)
          (mkStatus (Conditions (Status csr) ++ [approved]) (Certificate (Status csr))) in
  orElse (CSR_UpdateApproval csr')
    (fun err => Errorf ("error updating approval for csr: " +:+ Error err)) ;;;
  ret csr'.

(** [s[i]] for a Go slice and a signed index: [None] is the run-time panic. *)
Definition index {A} (s : list A) (i : Z) : option A :=
  if (i <? 0)%Z then None else s !! Z.to_nat i.

(** What the watch loop makes of an event (lines 114 to 123).  The type
    assertion of line 114 on [event.Object] is unchecked: on an object
    that is no request it panics. *)
Inductive verdict :=
| Skip
| Proceed (certificate : bytes)
| IndexOutOfRange
| InterfaceConversion.

Definition examine (csr : CertificateSigningRequest) (event : WatchEvent) : verdict :=
  match Object event with
  | StatusObject _ => InterfaceConversion
  | CSRObject updatedCSR =>
      if Nat.eqb (length (Conditions (Status updatedCSR))) 0 then Skip
      else
        match index (Conditions (Status updatedCSR))
                    (Z.of_nat (length (Conditions (Status csr))) - 1) with
        | None => IndexOutOfRange
        | Some cond =>
            let approveCond := Type_ cond in
            if Nat.eqb (UID updatedCSR) (UID csr)
               && String.eqb approveCond CertificateApproved then
              match Certificate (Status updatedCSR) with
              | Some certificate => Proceed certificate
              | None => Skip
              end
            else Skip
        end
  end.

(** What the Go runtime reports when the type assertion of lines 114 and
    118 meets the status object of an error event. *)
Definition interfaceConversion : string :=
  "interface conversion: runtime.Object is *v1.Status, not *v1beta1.CertificateSigningRequest".

Definition stillPending (ns instance csrName : string) : string :=
  "CSR still not approved for [" +:+ ns +:+ "/" +:+ instance +:+ "]: " +:+ csrName
  +:+ ", retry later".

(** The loop of [Create] (lines 104 to 137).  [tick] says whether the
    channel of [time.After] still has its value to deliver. *)
Fixpoint Create_loop (ns instance component suffix csrName : string)
    (csr : CertificateSigningRequest) (key : bytes)
    (tick : bool) (timeline : list occurrence) : M unit :=
  match timeline with
  | [] => fail (Errorf ("fail to get signed certificate for " +:+ csrName))
  | TenSeconds :: rest =>
      if tick then
        glog_Infof (stillPending ns instance csrName) ;;;
        Create_loop ns instance component suffix csrName csr key false rest
      else Create_loop ns instance component suffix csrName csr key false rest
  | Event event :: rest =>
      match examine csr event with
      | Skip => Create_loop ns instance component suffix csrName csr key tick rest
      | IndexOutOfRange => panic "runtime error: index out of range"
      | InterfaceConversion => panic interfaceConversion
      | Proceed certificate =>
          glog_Infof ("signed certificate for [" +:+ ns +:+ "/" +:+ instance +:+ "]: "
                      +:+ csrName) ;;;
          SaveToSecret ns instance component suffix certificate key ;;;
          CSR_Delete csrName
      end
  end.

(** [Create] from key generation to the opening of the watch (lines 73
    to 103): the request as approved, the key, and what the loop will see. *)
Definition Create_submit (fuel : nat) (ns instance commonName : string)
    (hostList IPList : list string) (csrName : string)
  : M (CertificateSigningRequest * bytes * list occurrence) :=
  generated <- orElse (NewCSR commonName hostList IPList)
                 (fun err => Errorf ("fail to generate new key and certificate for "
                                     +:+ ns +:+ "/" +:+ csrName +:+ ", " +:+ Error err)) ;;
  let rawCSR := fst generated in
  let key := snd generated in
  csr <- sendCSR fuel ns instance rawCSR csrName ;;
  csr <- approveCSR csr ;;
  let timeout := (60 * 5)%Z in
  fun w =>
    match CSR_Watch csrName timeout w with
    | (Fail err, w1) =>
        (Fail err, set_glog (glog w1 ++ ["error watch CSR for [" +:+ ns +:+ "/" +:+ instance
                                          +:+ "]: " +:+ csrName]) w1)
    | (Ret watchCh, w1) => (Ret (csr, key, watchCh), w1)
    | (Panic msg, w1) => (Panic msg, w1)
    | (OutOfFuel, w1) => (OutOfFuel, w1)
    end.

Definition Create (fuel : nat) (ns instance commonName : string)
    (hostList IPList : list string) (component suffix : string) : M unit :=
  let csrName := csrNameOf instance suffix in
  fun w =>
    match CheckSecret ns csrName w with
    | (true, w1) =>
        (Ret tt, set_glog (glog w1 ++ ["Secret " +:+ csrName
                   +:+ " already exist, reusing the key pair. TidbCluster: "
                   +:+ ns +:+ "/" +:+ csrName]) w1)
    | (false, w1) =>
        (submitted <- Create_submit fuel ns instance commonName hostList IPList csrName ;;
         let '(csr, key, watchCh) := submitted in
         Create_loop ns instance component suffix csrName csr key true watchCh) w1
    end.

End Program.

(** ** A laboratory environment

    A small instance of [Env] on which the model runs: keys are counted
    off the random source, PEM armour is the identity, a certificate
    verifies when the pool holds it, and the pool can be made unreadable.
    The label constants follow the labels Kubernetes recommends. *)

Fixpoint bytes_eqb (a b : bytes) : bool :=
  match a, b with
  | [], [] => true
  | x :: a', y :: b' => Byte.eqb x y && bytes_eqb a' b'
  | _, _ => false
  end.

Definition signedCert : bytes := [Byte.x30; Byte.x82; Byte.x01].

Definition labEnv (rootsReadable : bool) : Env :=
  {| NamespaceLabelKey := "app.kubernetes.io/namespace";
     ManagedByLabelKey := "app.kubernetes.io/managed-by";
     InstanceLabelKey := "app.kubernetes.io/instance";
     ComponentLabelKey := "app.kubernetes.io/component";
     label_New := <["app.kubernetes.io/managed-by" := "tidb-operator"]>
                    (<["app.kubernetes.io/name" := "tidb-cluster"]> ∅);
     net_ParseIP := fun s =>
       if String.eqb s "10.0.0.5" then Some [Byte.x0a; Byte.x00; Byte.x00; Byte.x05]
       else None;
     rsa_GenerateKey := fun n _ => inl (repeat Byte.x01 (S n));
     x509_CreateCertificateRequest := fun _ privKey => inl (Byte.x10 :: privKey);
     x509_MarshalPKCS1PrivateKey := fun privKey => privKey;
     x509_ParseCertificate := fun block => inl block;
     x509_Verify := fun cert opts =>
       if existsb (bytes_eqb cert) (Roots opts) then None
       else Some (Errorf "x509: certificate signed by unknown authority");
     tls_X509KeyPair := fun _ keyBytes =>
       match keyBytes with
       | [] => Some (Errorf "tls: failed to find any PEM data in key input")
       | _ => None
       end;
     pem_EncodeToMemory := fun _ b => b;
     pem_Decode := fun b => match b with [] => None | _ => Some b end;
     ReadCACerts :=
       if rootsReadable then inl [signedCert]
       else inr (Errorf "open ca.crt: no such file or directory") |}.

Definition emptyWorld : World :=
  {| secrets := ∅; csrs := ∅; nextUID := 0; faults := []; keysDrawn := 0;
     timelines := []; glog := [] |}.

Definition approvedCondition : CertificateSigningRequestCondition :=
  {| Type_ := CertificateApproved; Reason := "AutoApproved";
     Message := "Auto approved by TiDB Operator" |}.

Definition deniedCondition : CertificateSigningRequestCondition :=
  {| Type_ := CertificateDenied; Reason := "Denied"; Message := "denied" |}.

(** The request with identity [uid] as a watch shows it once it carries
    [conditions] and [certificate]. *)
Definition requestSeen (name : string) (uid : nat)
    (conditions : list CertificateSigningRequestCondition)
    (certificate : option bytes) : CertificateSigningRequest :=
  {| Name := name; UID := uid; Labels := ∅;
     Spec := {| Request := []; Usages := [] |};
     Status := {| Conditions := conditions; Certificate := certificate |} |}.

(** The event a signing authority sends for it. *)
Definition eventFor (name : string) (uid : nat)
    (conditions : list CertificateSigningRequestCondition)
    (certificate : option bytes) : WatchEvent :=
  {| EventType := "MODIFIED";
     Object := CSRObject (requestSeen name uid conditions certificate) |}.

(** The event a watch sends when the server reports an error. *)
Definition errorEvent : WatchEvent :=
  {| EventType := "ERROR"; Object := StatusObject "too old resource version" |}.

(** The scenario of the specification: identity [pd-0] of namespace [db],
    suffix [peer]. *)
Definition runPd0 (env : Env) (suffix : string) : M unit :=
  Create env 2 "db" "pd-0" "pd-0.db.svc" ["pd-0.db.svc"] ["10.0.0.5"] "pd" suffix.

(** The watch delivers an event without conditions, then the signed one. *)
Definition worldSigned : World :=
  set_timelines
    [[TenSeconds;
      Event (eventFor "pd-0-peer" 0 [] None);
      Event (eventFor "pd-0-peer" 0 [approvedCondition] (Some signedCert))]]
    emptyWorld.

(** The same for the empty suffix, where the request is named [pd-0]. *)
Definition worldSignedBare : World :=
  set_timelines
    [[Event (eventFor "pd-0" 0 [approvedCondition] (Some signedCert))]]
    emptyWorld.

(** The watch delivers nothing the loop accepts, and closes. *)
Definition worldSilent : World :=
  set_timelines
    [[TenSeconds;
      TenSeconds;
      Event (eventFor "pd-0-peer" 0 [approvedCondition] None);
      Event (eventFor "pd-0-peer" 7 [approvedCondition] (Some signedCert))]]
    emptyWorld.

(** The watch delivers an event without conditions, then reports an
    error, as a server does for a resource version that is too old. *)
Definition worldError : World :=
  set_timelines
    [[Event (eventFor "pd-0-peer" 0 [] None); Event errorEvent]]
    emptyWorld.

(** A request under the derived name that another instance labelled. *)
Definition foreignRequest : CertificateSigningRequest :=
  {| Name := "pd-0-peer"; UID := 41;
     Labels := <["app.kubernetes.io/instance" := "tikv-3"]> ∅;
     Spec := {| Request := [Byte.x2d]; Usages := [UsageClientAuth] |};
     Status := {| Conditions := []; Certificate := None |} |}.

(** A request under the derived name that an earlier run of this system
    left behind. *)
Definition staleRequest : CertificateSigningRequest :=
  {| Name := "pd-0-peer"; UID := 3;
     Labels := <["app.kubernetes.io/instance" := "pd-0"]>
                 (<["app.kubernetes.io/managed-by" := "tidb-operator"]>
                    (<["app.kubernetes.io/namespace" := "db"]> ∅));
     Spec := {| Request := [Byte.x2d]; Usages := [UsageClientAuth; UsageServerAuth] |};
     Status := {| Conditions := [approvedCondition]; Certificate := None |} |}.

Definition worldStale : World :=
  set_nextUID 4 (set_csrs (<["pd-0-peer" := staleRequest]> ∅) emptyWorld).

Definition usableSecret : Secret :=
  {| secretName := "pd-0-peer"; secretLabels := ∅;
     Data := <["key" := [Byte.x01]]> (<["cert" := signedCert]> ∅) |}.

(** A usable secret and the foreign request, side by side. *)
Definition worldForeign : World :=
  set_csrs (<["pd-0-peer" := foreignRequest]> ∅)
    (set_secrets (<[("db", "pd-0-peer") := usableSecret]> ∅) emptyWorld).

(** The scenario up to the opening of the watch. *)
Definition submitPd0 (w : World)
  : outcome (CertificateSigningRequest * bytes * list occurrence) * World :=
  Create_submit (labEnv true) 2 "db" "pd-0" "pd-0.db.svc" ["pd-0.db.svc"] ["10.0.0.5"]
    "pd-0-peer" w.

(** The request as [Create] holds it in the scenario when it enters its
    loop: identity 0 and the one condition of [approveCSR]. *)
Definition requestAtHand : CertificateSigningRequest :=
  match fst (submitPd0 emptyWorld) with
  | Ret (csr, _, _) => csr
  | _ => newRequest (labEnv true) "db" "pd-0" [] "pd-0-peer"
  end.

(** Approved and signed, then denied: the latest condition is "Denied". *)
Definition eventDeniedLast : WatchEvent :=
  eventFor "pd-0-peer" 0 [approvedCondition; deniedCondition] (Some signedCert).

(** Denied, then approved: the latest condition is "Approved". *)
Definition eventApprovedLast : WatchEvent :=
  eventFor "pd-0-peer" 0 [deniedCondition; approvedCondition] (Some signedCert).

(** The watch delivers a tick, an event without conditions and the event
    whose latest condition is "Denied", and closes. *)
Definition worldDenied : World :=
  set_timelines
    [[TenSeconds; Event (eventFor "pd-0-peer" 0 [] None); Event eventDeniedLast]]
    emptyWorld.

(** ** Notions the statements use *)

(** The backend serves the next request. *)
Definition served (w : World) : Prop :=
  match faults w with
  | Some _ :: _ => False
  | _ => True
  end.

(** The cluster is the same in both worlds: at most the log and the
    backend's pending failures differ. *)
Definition same_cluster (w w' : World) : Prop :=
  secrets w' = secrets w /\ csrs w' = csrs w /\ nextUID w' = nextUID w
  /\ keysDrawn w' = keysDrawn w /\ timelines w' = timelines w.

(** Only the log differs. *)
Definition same_but_log (w w' : World) : Prop :=
  same_cluster w w' /\ faults w' = faults w.

(** The loop passes over the occurrence. *)
Definition passed_over (csr : CertificateSigningRequest) (o : occurrence) : Prop :=
  match o with
  | TenSeconds => True
  | Event event => examine csr event = Skip
  end.

(** The loop accepts the occurrence: it is an event that sends the loop
    on to [SaveToSecret]. *)
Definition accepted (csr : CertificateSigningRequest) (o : occurrence) : Prop :=
  match o with
  | TenSeconds => False
  | Event event => exists certificate, examine csr event = Proceed certificate
  end.

(** The event test in the words of the specification: the identity is
    that of the request just created, the latest condition is "Approved",
    and the status carries signed-certificate bytes that are not empty. *)
Definition qualifies_by_spec (csr : CertificateSigningRequest) (event : WatchEvent) : bool :=
  match Object event with
  | StatusObject _ => false
  | CSRObject updatedCSR =>
      Nat.eqb (UID updatedCSR) (UID csr)
      && match last (Conditions (Status updatedCSR)) with
         | Some cond => String.eqb (Type_ cond) "Approved"
         | None => false
         end
      && match Certificate (Status updatedCSR) with
         | Some (_ :: _) => true
         | _ => false
         end
  end.

(** An event that qualifies in the words of the specification arrives
    before the channel closes. *)
Definition qualifying_arrives (csr : CertificateSigningRequest)
    (watchCh : list occurrence) : bool :=
  existsb (fun o => match o with
                    | TenSeconds => false
                    | Event event => qualifies_by_spec csr event
                    end) watchCh.

(** The occurrence is a tick, or an event whose object is a request. *)
Definition carries_request (o : occurrence) : Prop :=
  match o with
  | TenSeconds => True
  | Event event => exists updatedCSR, Object event = CSRObject updatedCSR
  end.

(** How often a line stands in a log. *)
Fixpoint count_line (line : string) (log : list string) : nat :=
  match log with
  | [] => 0
  | l :: rest => (if String.eqb line l then 1 else 0) + count_line line rest
  end.

(** How many ten-second marks a timeline has. *)
Fixpoint marks (timeline : list occurrence) : nat :=
  match timeline with
  | [] => 0
  | TenSeconds :: rest => S (marks rest)
  | Event _ :: rest => marks rest
  end.

(** The three label keys [getCSR] reads are different keys. *)
Definition distinct_label_keys (env : Env) : Prop :=
  NamespaceLabelKey env <> ManagedByLabelKey env
  /\ NamespaceLabelKey env <> InstanceLabelKey env
  /\ ManagedByLabelKey env <> InstanceLabelKey env.

(** The laboratory with a random source that fails. *)
Definition noEntropyEnv : Env :=
  let e := labEnv true in
  {| NamespaceLabelKey := NamespaceLabelKey e;
     ManagedByLabelKey := ManagedByLabelKey e;
     InstanceLabelKey := InstanceLabelKey e;
     ComponentLabelKey := ComponentLabelKey e;
     label_New := label_New e;
     net_ParseIP := net_ParseIP e;
     rsa_GenerateKey := fun _ _ => inr (Errorf "crypto/rand: unexpected EOF");
     x509_CreateCertificateRequest := x509_CreateCertificateRequest e;
     x509_MarshalPKCS1PrivateKey := x509_MarshalPKCS1PrivateKey e;
     x509_ParseCertificate := x509_ParseCertificate e;
     x509_Verify := x509_Verify e;
     tls_X509KeyPair := tls_X509KeyPair e;
     pem_EncodeToMemory := pem_EncodeToMemory e;
     pem_Decode := pem_Decode e;
     ReadCACerts := ReadCACerts e |}.

(** The request [sendCSR] returns in the laboratory when it replaces the
    stale request. *)
Definition requestSent : CertificateSigningRequest :=
  match fst (sendCSR (labEnv true) 2 "db" "pd-0" [Byte.x10; Byte.x01] "pd-0-peer"
               worldStale) with
  | Ret resp => resp
  | _ => newRequest (labEnv true) "db" "pd-0" [Byte.x10; Byte.x01] "pd-0-peer"
  end.

(** The scenario beside a request of another name. *)
Definition neighbourRequest : CertificateSigningRequest :=
  {| Name := "tikv-3-peer"; UID := 2;
     Labels := <["app.kubernetes.io/instance" := "tikv-3"]> ∅;
     Spec := {| Request := [Byte.x2d]; Usages := [UsageClientAuth] |};
     Status := {| Conditions := [approvedCondition]; Certificate := Some signedCert |} |}.

Definition worldNeighbour : World :=
  set_nextUID 3 (set_csrs (<["tikv-3-peer" := neighbourRequest]> ∅) worldSigned).

(** * Properties *)

(** ** Strings and lists *)

Lemma append_String (c : Ascii.ascii) (s t : string) :
  String c s +:+ t = String c (s +:+ t).
Proof. reflexivity. Qed.

Lemma string_app_hyphen_neq (s : string) : s <> s +:+ "-".
Proof.
  induction s as [|c s IH]; [discriminate |].
  rewrite append_String. intros H. injection H as H. exact (IH H).
Qed.

Lemma parseIPList_from (env : Env) (IPList : list string) (acc : list IP) :
  fold_left (fun ipAddrList ip => (ipAddrList ++ [net_ParseIP env ip])%list) IPList acc
  = (acc ++ map (net_ParseIP env) IPList)%list.
Proof.
  revert acc. induction IPList as [|ip rest IH]; intros acc; simpl.
  - now rewrite app_nil_r.
  - rewrite IH, <- app_assoc. reflexivity.
Qed.

Lemma parseIPList_map (env : Env) (IPList : list string) :
  parseIPList env IPList = map (net_ParseIP env) IPList.
Proof. unfold parseIPList. now rewrite parseIPList_from. Qed.

(** ** The API server *)

(** Projections of updated worlds. *)
Ltac wsimpl :=
  cbn [secrets csrs nextUID faults keysDrawn timelines glog
       set_secrets set_csrs set_nextUID set_faults set_keysDrawn set_timelines
       set_glog fst snd] in *.

Lemma backend_inv (w w' : World) (r : outcome unit) :
  backend w = (r, w') ->
  same_cluster w w' /\ glog w' = glog w
  /\ ((r = Ret tt /\ served w /\ faults w' = tail (faults w))
      \/ (exists msg, r = Fail (Errorf msg) /\ faults w = Some msg :: faults w')).
Proof.
  unfold backend, served, same_cluster.
  destruct (faults w) as [|[msg|] rest] eqn:E; intros [= <- <-]; simpl; rewrite ?E;
    repeat split; eauto.
Qed.

Lemma Secrets_Get_inv (ns name : string) (w w' : World) (r : outcome Secret) :
  Secrets_Get ns name w = (r, w') ->
  same_cluster w w' /\ glog w' = glog w
  /\ ((exists s, r = Ret s /\ served w /\ secrets w !! (ns, name) = Some s
                 /\ faults w' = tail (faults w))
      \/ (exists err, r = Fail err
                      /\ (~ served w \/ secrets w !! (ns, name) = None))).
Proof.
  unfold Secrets_Get, bind. destruct (backend w) as [[[]|err|msg|] w1] eqn:B;
    apply backend_inv in B as (Hc & Hg & [(E & Hs & Hf) | (m & E & Hf)]); try discriminate.
  - destruct Hc as (H1 & H2 & H3 & H4 & H5).
    destruct (secrets w1 !! (ns, name)) as [s|] eqn:L; intros [= <- <-];
      (split; [repeat split; assumption | split; [assumption |]]).
    + left. exists s. rewrite <- H1. auto.
    + right. eexists. split; [reflexivity |]. right. now rewrite <- H1.
  - intros [= <- <-]. split; [assumption | split; [assumption |]].
    right. eexists. split; [reflexivity |]. left. unfold served. now rewrite Hf.
Qed.

Section CheckSecretFacts.

Context (env : Env).

Lemma validate_None_iff (ns secretName : string) (certBytes keyBytes : bytes) :
  validate env ns secretName certBytes keyBytes = None <->
  exists block cert rootCAs,
    pem_Decode env certBytes = Some block
    /\ x509_ParseCertificate env block = inl cert
    /\ ReadCACerts env = inl rootCAs
    /\ x509_Verify env cert
         {| Roots := rootCAs;
            KeyUsages := [ExtKeyUsageClientAuth; ExtKeyUsageServerAuth] |} = None
    /\ tls_X509KeyPair env certBytes keyBytes = None.
Proof.
  unfold validate. split.
  - destruct (pem_Decode env certBytes) as [block|] eqn:D; [|discriminate].
    destruct (x509_ParseCertificate env block) as [cert|] eqn:P; [|discriminate].
    destruct (ReadCACerts env) as [rootCAs|] eqn:R; [|discriminate].
    destruct (x509_Verify env cert _) eqn:V; [discriminate|].
    destruct (tls_X509KeyPair env certBytes keyBytes) eqn:K; [discriminate|].
    intros _. exists block, cert, rootCAs. repeat split; auto.
  - intros (block & cert & rootCAs & -> & -> & R & V & ->).
    rewrite R, V. reflexivity.
Qed.

Lemma CheckSecret_frame (ns secretName : string) (w : World) :
  same_cluster w (snd (CheckSecret env ns secretName w)).
Proof.
  unfold CheckSecret, LoadFromSecret, bind.
  destruct (Secrets_Get ns secretName w) as [r w1] eqn:G.
  apply Secrets_Get_inv in G as (Hc & _ & _).
  destruct r as [s|err|msg|]; simpl; try assumption.
  destruct (validate env ns secretName _ _); assumption.
Qed.

Lemma CheckSecret_true (ns secretName : string) (w : World) :
  fst (CheckSecret env ns secretName w) = true <->
  served w /\
  exists secret,
    secrets w !! (ns, secretName) = Some secret
    /\ validate env ns secretName (data_get (Data secret) "cert")
                (data_get (Data secret) "key") = None.
Proof.
  unfold CheckSecret, LoadFromSecret, bind.
  destruct (Secrets_Get ns secretName w) as [r w1] eqn:G.
  apply Secrets_Get_inv in G as (_ & _ & [(s & -> & Hs & L & _) | (err & -> & H)]); simpl.
  - destruct (validate env ns secretName _ _) eqn:V; simpl; split.
    + discriminate.
    + intros (_ & s' & L' & V'). rewrite L in L'. injection L' as <-. congruence.
    + intros _. split; [assumption |]. exists s. auto.
    + reflexivity.
  - split; [discriminate |]. intros (Hs & s & L & _).
    destruct H as [H | H]; [contradiction | congruence].
Qed.

End CheckSecretFacts.

Section SaveToSecretFacts.

Context (env : Env).

(** The secret [SaveToSecret] hands to the API server. *)
Lemma SaveToSecret_inv (ns instance component suffix : string) (cert key : bytes)
    (w w' : World) (r : outcome unit) :
  SaveToSecret env ns instance component suffix cert key w = (r, w') ->
  csrs w' = csrs w /\ nextUID w' = nextUID w /\ keysDrawn w' = keysDrawn w
  /\ timelines w' = timelines w
  /\ ((r = Ret tt /\ served w
       /\ secrets w !! (ns, instance +:+ "-" +:+ suffix) = None
       /\ exists secret,
            secretName secret = instance +:+ "-" +:+ suffix
            /\ data_get (Data secret) "cert" = cert
            /\ data_get (Data secret) "key" = key
            /\ secrets w' = <[(ns, instance +:+ "-" +:+ suffix) := secret]> (secrets w))
      \/ (exists err, r = Fail err /\ secrets w' = secrets w)).
Proof.
  unfold SaveToSecret, secretNameOf, Secrets_Create, bind.
  destruct (backend w) as [[[]|err|msg|] w1] eqn:B;
    apply backend_inv in B as ((H1 & H2 & H3 & H4 & H5) & Hg & [(E & Hs & Hf) | (m & E & Hf)]);
    try discriminate; cbn [secretName].
  - destruct (secrets w1 !! (ns, instance +:+ "-" +:+ suffix)) as [s|] eqn:L;
      intros [= <- <-]; cbn; repeat (split; [assumption |]).
    + right. eauto.
    + left. split; [reflexivity |]. split; [assumption |]. rewrite <- H1.
      split; [assumption |]. eexists. repeat split.
      * reflexivity.
      * unfold data_get. cbn [Data]. rewrite lookup_insert_ne by discriminate.
        now rewrite lookup_insert_eq.
      * unfold data_get. cbn [Data]. now rewrite lookup_insert_eq.
  - intros [= <- <-]. cbn. repeat (split; [assumption |]). right. eauto.
Qed.

(** On a serving backend and a free name [SaveToSecret] succeeds. *)
Lemma SaveToSecret_served (ns instance component suffix : string) (cert key : bytes)
    (w : World) :
  served w -> secrets w !! (ns, instance +:+ "-" +:+ suffix) = None ->
  fst (SaveToSecret env ns instance component suffix cert key w) = Ret tt.
Proof.
  intros Hs L. unfold SaveToSecret, secretNameOf, Secrets_Create, bind.
  destruct (backend w) as [[[]|err|msg|] w1] eqn:B;
    apply backend_inv in B as ((H1 & _) & _ & [(E & _ & _) | (m & E & Hf)]);
    try discriminate; cbn [secretName].
  - rewrite H1, L. reflexivity.
  - exfalso. unfold served in Hs. now rewrite Hf in Hs.
Qed.

End SaveToSecretFacts.

(** ** C8: addresses that do not parse *)

(** C8. [NewCSR] parses every entry of the address list; an entry that
    does not parse is neither rejected nor an error: the request carries
    the nil address in its place, and [NewCSR] fails only when the key
    generation or the request creation does. *)
Theorem NewCSR_carries_malformed_addresses
    (env : Env) (commonName : string) (hostList IPList : list string) :
  let template := csrTemplate env commonName hostList IPList in
  IPAddresses template = map (net_ParseIP env) IPList
  /\ length (IPAddresses template) = length IPList
  /\ (forall i ip, IPList !! i = Some ip -> net_ParseIP env ip = None ->
                   IPAddresses template !! i = Some None)
  /\ (forall w privKey csr,
         rsa_GenerateKey env (keysDrawn w) rsaKeySize = inl privKey ->
         x509_CreateCertificateRequest env template privKey = inl csr ->
         fst (NewCSR env commonName hostList IPList w)
         = Ret (csr, convertKeyToPEM env "RSA PRIVATE KEY" privKey)).
Proof.
  cbn zeta. unfold csrTemplate at 1 2 3. cbn [IPAddresses]. rewrite parseIPList_map.
  split; [reflexivity | split; [now rewrite length_map | split]].
  - intros i ip Hi Hp. rewrite list_lookup_fmap, Hi. cbn. now rewrite Hp.
  - intros w privKey csr Hk Hc. unfold NewCSR, bind, newPrivateKey.
    rewrite Hk, Hc. reflexivity.
Qed.

(** ** C9: the usability check *)

(** C9. [CheckSecret] answers a boolean for every input and changes
    nothing in the cluster; the answer is true exactly when the backend
    served the read, the secret exists, its certificate decodes and
    parses, the trusted roots were read, the chain verifies for client and
    server authentication, and the key matches the certificate; on every
    other path it is false. *)
Theorem CheckSecret_fails_closed (env : Env) (ns secretName : string) (w : World) :
  same_cluster w (snd (CheckSecret env ns secretName w))
  /\ (fst (CheckSecret env ns secretName w) = true <->
      served w /\
      exists secret block cert rootCAs,
        secrets w !! (ns, secretName) = Some secret
        /\ pem_Decode env (data_get (Data secret) "cert") = Some block
        /\ x509_ParseCertificate env block = inl cert
        /\ ReadCACerts env = inl rootCAs
        /\ x509_Verify env cert
             {| Roots := rootCAs;
                KeyUsages := [ExtKeyUsageClientAuth; ExtKeyUsageServerAuth] |} = None
        /\ tls_X509KeyPair env (data_get (Data secret) "cert")
                           (data_get (Data secret) "key") = None).
Proof.
  split; [apply CheckSecret_frame |].
  rewrite CheckSecret_true. split.
  - intros (Hs & secret & L & V). split; [assumption |].
    apply validate_None_iff in V as (block & cert & rootCAs & V).
    exists secret, block, cert, rootCAs. tauto.
  - intros (Hs & secret & block & cert & rootCAs & L & V). split; [assumption |].
    exists secret. split; [assumption |]. apply validate_None_iff. eauto.
Qed.

Lemma CSR_Get_inv (name : string) (w w' : World) (r : outcome CertificateSigningRequest) :
  CSR_Get name w = (r, w') ->
  same_cluster w w' /\ glog w' = glog w
  /\ ((served w /\ faults w' = tail (faults w)
       /\ ((exists csr, r = Ret csr /\ csrs w !! name = Some csr)
           \/ (exists err, r = Fail err /\ IsNotFound err = true /\ csrs w !! name = None)))
      \/ (~ served w /\ exists err, r = Fail err /\ IsNotFound err = false)).
Proof.
  unfold CSR_Get, bind. destruct (backend w) as [[[]|err|msg|] w1] eqn:B;
    apply backend_inv in B as (Hc & Hg & [(E & Hs & Hf) | (m & E & Hf)]); try discriminate.
  - pose proof Hc as (H1 & H2 & H3 & H4 & H5).
    destruct (csrs w1 !! name) as [csr|] eqn:L; intros [= <- <-];
      (split; [assumption | split; [assumption |]]); left;
      (split; [assumption | split; [assumption |]]); rewrite <- H2.
    + left. eauto.
    + right. eexists. repeat split. assumption.
  - intros [= <- <-]. split; [assumption | split; [assumption |]]. right.
    injection E as ->. split; [unfold served; now rewrite Hf | eauto].
Qed.

Lemma CSR_Delete_inv (name : string) (w w' : World) (r : outcome unit) :
  CSR_Delete name w = (r, w') ->
  secrets w' = secrets w /\ nextUID w' = nextUID w /\ keysDrawn w' = keysDrawn w
  /\ timelines w' = timelines w /\ glog w' = glog w
  /\ ((r = Ret tt /\ served w /\ faults w' = tail (faults w)
       /\ is_Some (csrs w !! name) /\ csrs w' = delete name (csrs w))
      \/ (exists err, r = Fail err /\ csrs w' = csrs w)).
Proof.
  unfold CSR_Delete, bind. destruct (backend w) as [[[]|err|msg|] w1] eqn:B;
    apply backend_inv in B as ((H1 & H2 & H3 & H4 & H5) & Hg & [(E & Hs & Hf) | (m & E & Hf)]);
    try discriminate.
  - destruct (csrs w1 !! name) as [csr|] eqn:L; intros [= <- <-]; cbn;
      repeat (split; [assumption |]).
    + left. rewrite <- H2. rewrite L. repeat split; eauto.
    + right. eauto.
  - intros [= <- <-]. repeat (split; [assumption |]). right. eauto.
Qed.

Lemma CSR_Create_inv (csr : CertificateSigningRequest) (w w' : World)
    (r : outcome CertificateSigningRequest) :
  CSR_Create csr w = (r, w') ->
  secrets w' = secrets w /\ keysDrawn w' = keysDrawn w
  /\ timelines w' = timelines w /\ glog w' = glog w
  /\ ((served w /\ faults w' = tail (faults w) /\ csrs w !! Name csr = None
       /\ r = Ret (mkCSR (Name csr) (nextUID w) (Labels csr) (Spec csr) (Status csr))
       /\ csrs w' = <[Name csr := mkCSR (Name csr) (nextUID w) (Labels csr) (Spec csr)
                                        (Status csr)]> (csrs w)
       /\ nextUID w' = S (nextUID w))
      \/ (exists err, r = Fail err /\ csrs w' = csrs w /\ nextUID w' = nextUID w)).
Proof.
  unfold CSR_Create, bind. destruct (backend w) as [[[]|err|msg|] w1] eqn:B;
    apply backend_inv in B as ((H1 & H2 & H3 & H4 & H5) & Hg & [(E & Hs & Hf) | (m & E & Hf)]);
    try discriminate.
  - destruct (csrs w1 !! Name csr) as [old|] eqn:L; intros [= <- <-]; cbn;
      repeat (split; [assumption |]).
    + right. eauto.
    + left. rewrite <- H2, <- H3. repeat split; assumption.
  - intros [= <- <-]. repeat (split; [assumption |]). right. eauto.
Qed.

Lemma CSR_UpdateApproval_inv (csr : CertificateSigningRequest) (w w' : World)
    (r : outcome CertificateSigningRequest) :
  CSR_UpdateApproval csr w = (r, w') ->
  secrets w' = secrets w /\ nextUID w' = nextUID w /\ keysDrawn w' = keysDrawn w
  /\ timelines w' = timelines w /\ glog w' = glog w
  /\ ((exists stored, r = Ret stored /\ csrs w' = <[Name csr := stored]> (csrs w))
      \/ (exists err, r = Fail err /\ csrs w' = csrs w)).
Proof.
  unfold CSR_UpdateApproval, bind. destruct (backend w) as [[[]|err|msg|] w1] eqn:B;
    apply backend_inv in B as ((H1 & H2 & H3 & H4 & H5) & Hg & [(E & Hs & Hf) | (m & E & Hf)]);
    try discriminate.
  - destruct (csrs w1 !! Name csr) as [old|] eqn:L; intros [= <- <-]; cbn;
      repeat (split; [assumption |]).
    + left. rewrite <- H2. eauto.
    + right. eauto.
  - intros [= <- <-]. repeat (split; [assumption |]). right. eauto.
Qed.

Lemma CSR_Watch_inv (name : string) (timeout : Z) (w w' : World)
    (r : outcome (list occurrence)) :
  CSR_Watch name timeout w = (r, w') ->
  secrets w' = secrets w /\ csrs w' = csrs w /\ nextUID w' = nextUID w
  /\ keysDrawn w' = keysDrawn w /\ glog w' = glog w
  /\ ((exists t, r = Ret t) \/ (exists err, r = Fail err)).
Proof.
  unfold CSR_Watch, bind. destruct (backend w) as [[[]|err|msg|] w1] eqn:B;
    apply backend_inv in B as ((H1 & H2 & H3 & H4 & H5) & Hg & [(E & Hs & Hf) | (m & E & Hf)]);
    try discriminate.
  - destruct (timelines w1) as [|t rest] eqn:L; intros [= <- <-]; cbn;
      repeat (split; [assumption |]); left; eauto.
  - intros [= <- <-]. repeat (split; [assumption |]). right. eauto.
Qed.

Section SendCSRFacts.

Context (env : Env).

Lemma getCSR_inv (ns instance csrName : string) (w w' : World)
    (r : outcome (option CertificateSigningRequest)) :
  getCSR env ns instance csrName w = (r, w') ->
  same_cluster w w' /\ glog w' = glog w
  /\ ((served w /\ faults w' = tail (faults w)
       /\ ((exists csr, r = Ret (Some csr) /\ csrs w !! csrName = Some csr
                        /\ owned env ns instance csr = true)
           \/ (r = Ret None /\ csrs w !! csrName = None)
           \/ (exists csr err, r = Fail err /\ csrs w !! csrName = Some csr
                               /\ owned env ns instance csr = false)))
      \/ (~ served w /\ exists err, r = Fail err)).
Proof.
  unfold getCSR. destruct (CSR_Get csrName w) as [r0 w1] eqn:G.
  apply CSR_Get_inv in G
    as (Hc & Hg & [(Hs & Hf & [(csr & -> & L) | (err & -> & Hn & L)])
                   | (Hs & err & -> & Hn)]).
  - destruct (owned env ns instance csr) eqn:O; intros [= <- <-];
      (split; [assumption | split; [assumption |]]); left;
      (split; [assumption | split; [assumption |]]).
    + left. eauto.
    + right. right. eauto.
  - rewrite Hn. intros [= <- <-]. split; [assumption | split; [assumption |]]. left.
    split; [assumption | split; [assumption |]]. right. left. auto.
  - rewrite Hn. intros [= <- <-]. split; [assumption | split; [assumption |]]. right.
    eauto.
Qed.

(** One level of [sendCSR], call by call. *)
Lemma sendCSR_step (fuel : nat) (ns instance : string) (rawCSR : bytes)
    (csrName : string) (w : World) :
  sendCSR env (S fuel) ns instance rawCSR csrName w =
  let place := "[" +:+ ns +:+ "/" +:+ instance +:+ "]: " +:+ csrName in
  match getCSR env ns instance csrName w with
  | (Ret (Some _), w1) =>
      match CSR_Delete csrName
              (set_glog (glog w1 ++ ["found exist CSR " +:+ ns +:+ "/" +:+ csrName
                                     +:+ " created by tidb-operator, overwriting"]) w1) with
      | (Ret _, w2) =>
          sendCSR env fuel ns instance rawCSR csrName
            (set_glog (glog w2 ++ ["exist old CSR deleted for " +:+ place]) w2)
      | (Fail err, w2) =>
          (Fail (Errorf ("failed to delete exist old CSR for " +:+ place
                         +:+ ", error: " +:+ Error err)), w2)
      | (Panic msg, w2) => (Panic msg, w2)
      | (OutOfFuel, w2) => (OutOfFuel, w2)
      end
  | (Ret None, w1) =>
      match CSR_Create (newRequest env ns instance rawCSR csrName) w1 with
      | (Ret resp, w2) =>
          (Ret resp, set_glog (glog w2 ++ ["CSR created for " +:+ place]) w2)
      | (Fail err, w2) =>
          (Fail (Errorf ("failed to create CSR for " +:+ place
                         +:+ ", error: " +:+ Error err)), w2)
      | (Panic msg, w2) => (Panic msg, w2)
      | (OutOfFuel, w2) => (OutOfFuel, w2)
      end
  | (Fail err, w1) =>
      (Fail (Errorf ("failed to create CSR for " +:+ place
                     +:+ ", error: " +:+ Error err)), w1)
  | (Panic msg, w1) => (Panic msg, w1)
  | (OutOfFuel, w1) => (OutOfFuel, w1)
  end.
Proof.
  cbn [sendCSR]. cbv zeta. unfold bind, orElse, glog_Infof, ret.
  destruct (getCSR env ns instance csrName w) as [[[csr|]|err|msg|] w1]; try reflexivity.
  - destruct (CSR_Delete csrName _) as [[[]|err|msg|] w2]; reflexivity.
  - destruct (CSR_Create _ w1) as [[resp|err|msg|] w2]; reflexivity.
Qed.

(** With no resource under the name, [sendCSR] does not call itself. *)
Lemma sendCSR_absent (ns instance : string) (rawCSR : bytes) (csrName : string)
    (w : World) (n : nat) :
  csrs w !! csrName = None ->
  sendCSR env (S n) ns instance rawCSR csrName w = sendCSR env 1 ns instance rawCSR csrName w
  /\ fst (sendCSR env 1 ns instance rawCSR csrName w) <> OutOfFuel.
Proof.
  intros L. rewrite !sendCSR_step. cbv zeta.
  destruct (getCSR env ns instance csrName w) as [r w1] eqn:G.
  apply getCSR_inv in G
    as (Hc & Hg & [(Hs & Hf & [(csr & -> & L' & _) | [(-> & _) | (csr & err & -> & L' & _)]])
                   | (Hs & err & ->)]); try congruence.
  - split; [reflexivity |].
    destruct (CSR_Create _ w1) as [[resp|err|msg|] w2] eqn:C; cbn; try discriminate.
    apply CSR_Create_inv in C as (_ & _ & _ & _ & [(_ & _ & _ & E & _) | (e & E & _)]);
      discriminate.
  - split; [reflexivity | discriminate].
Qed.

(** Two levels are all [sendCSR] ever uses. *)
Lemma sendCSR_two_levels (ns instance : string) (rawCSR : bytes) (csrName : string)
    (w : World) (n : nat) :
  sendCSR env (S (S n)) ns instance rawCSR csrName w
  = sendCSR env 2 ns instance rawCSR csrName w
  /\ fst (sendCSR env 2 ns instance rawCSR csrName w) <> OutOfFuel.
Proof.
  rewrite (sendCSR_step (S n)), (sendCSR_step 1). cbv zeta.
  destruct (getCSR env ns instance csrName w) as [r w1] eqn:G.
  apply getCSR_inv in G
    as (Hc & Hg & [(Hs & Hf & [(csr & -> & L & _) | [(-> & L) | (csr & err & -> & L & _)]])
                   | (Hs & err & ->)]); try (split; [reflexivity | discriminate]).
  - destruct (CSR_Delete csrName _) as [[[]|err|msg|] w2] eqn:D;
      try (split; [reflexivity | discriminate]).
    + apply CSR_Delete_inv in D as (_ & _ & _ & _ & _ & [(_ & _ & _ & _ & Hd) | (e & E & _)]);
        [| discriminate].
      apply sendCSR_absent. cbn. rewrite Hd. apply lookup_delete_eq.
    + apply CSR_Delete_inv in D as (_ & _ & _ & _ & _ & [(E & _) | (e & E & _)]);
        discriminate.
  - destruct (CSR_Create _ w1) as [[resp|err|msg|] w2] eqn:C; cbn;
      try (split; [reflexivity | discriminate]).
    apply CSR_Create_inv in C as (_ & _ & _ & _ & [(_ & _ & _ & E & _) | (e & E & _)]);
      discriminate.
Qed.

End SendCSRFacts.

Section SubmitFacts.

Context (env : Env).

Lemma sendCSR_frame (fuel : nat) (ns instance : string) (rawCSR : bytes)
    (csrName : string) (w w' : World) (r : outcome CertificateSigningRequest) :
  sendCSR env fuel ns instance rawCSR csrName w = (r, w') ->
  secrets w' = secrets w /\ keysDrawn w' = keysDrawn w /\ timelines w' = timelines w.
Proof.
  revert w. induction fuel as [|fuel IH]; intros w.
  - cbn. intros [= <- <-]. auto.
  - rewrite sendCSR_step. cbv zeta.
    destruct (getCSR env ns instance csrName w) as [r0 w1] eqn:G.
    apply getCSR_inv in G as ((H1 & H2 & H3 & H4 & H5) & Hg & _).
    destruct r0 as [[csr|]|err|msg|]; try (intros [= <- <-]; auto).
    + destruct (CSR_Delete csrName _) as [r1 w2] eqn:D.
      apply CSR_Delete_inv in D as (D1 & D2 & D3 & D4 & D5 & _). cbn in *.
      destruct r1 as [[]|err|msg|]; try (intros [= <- <-]; repeat split; congruence).
      intros H. apply IH in H as (I1 & I2 & I3). cbn in *. repeat split; congruence.
    + destruct (CSR_Create _ w1) as [r1 w2] eqn:C.
      apply CSR_Create_inv in C as (C1 & C2 & C3 & C4 & _).
      destruct r1 as [resp|err|msg|]; intros [= <- <-]; cbn; repeat split; congruence.
Qed.

(** A request that [sendCSR] returns is the one now stored under the name,
    and it has no condition yet. *)
Lemma sendCSR_Ret (fuel : nat) (ns instance : string) (rawCSR : bytes)
    (csrName : string) (w w' : World) (resp : CertificateSigningRequest) :
  sendCSR env fuel ns instance rawCSR csrName w = (Ret resp, w') ->
  csrs w' !! csrName = Some resp /\ Name resp = csrName
  /\ Conditions (Status resp) = [].
Proof.
  revert w. induction fuel as [|fuel IH]; intros w.
  - cbn. discriminate.
  - rewrite sendCSR_step. cbv zeta.
    destruct (getCSR env ns instance csrName w) as [[[csr|]|err|msg|] w1] eqn:G;
      try discriminate.
    + destruct (CSR_Delete csrName _) as [[[]|err|msg|] w2] eqn:D; try discriminate.
      apply IH.
    + destruct (CSR_Create _ w1) as [r1 w2] eqn:C.
      apply CSR_Create_inv in C
        as (_ & _ & _ & _ & [(_ & _ & _ & -> & Hc & _) | (e & -> & _)]); [| discriminate].
      intros [= <- <-]. cbn in *. rewrite Hc, lookup_insert_eq. auto.
Qed.

(** A resource under the name that is not this system's stops [sendCSR],
    and stays as it is. *)
Lemma sendCSR_foreign (fuel : nat) (ns instance : string) (rawCSR : bytes)
    (csrName : string) (w : World) (csr : CertificateSigningRequest) :
  csrs w !! csrName = Some csr -> owned env ns instance csr = false ->
  exists err w',
    sendCSR env (S fuel) ns instance rawCSR csrName w = (Fail err, w')
    /\ same_cluster w w'.
Proof.
  intros L O. rewrite sendCSR_step. cbv zeta.
  destruct (getCSR env ns instance csrName w) as [r w1] eqn:G.
  apply getCSR_inv in G
    as (Hc & Hg & [(Hs & Hf & [(c & -> & L' & O') | [(-> & L') | (c & err & -> & _)]])
                   | (Hs & err & ->)]); try congruence; eauto.
Qed.

Lemma backend_quiet (w : World) : faults w = [] -> backend w = (Ret tt, w).
Proof. unfold backend. now intros ->. Qed.

(** A resource of this system under the name is deleted and the request
    is created anew, when the backend serves the four calls. *)
Lemma sendCSR_stale (ns instance : string) (rawCSR : bytes) (csrName : string)
    (w : World) (stale : CertificateSigningRequest) :
  csrs w !! csrName = Some stale -> owned env ns instance stale = true ->
  faults w = [] ->
  let request := newRequest env ns instance rawCSR csrName in
  let resp := mkCSR csrName (nextUID w) (Labels request) (Spec request) (Status request) in
  exists w',
    sendCSR env 2 ns instance rawCSR csrName w = (Ret resp, w')
    /\ csrs w' = <[csrName := resp]> (delete csrName (csrs w))
    /\ nextUID w' = S (nextUID w).
Proof.
  intros L O F. cbv zeta. destruct w as [s c n f k t g]. cbn in L, F. subst f.
  rewrite sendCSR_step. cbv zeta.
  unfold getCSR, CSR_Get, bind at 1. rewrite backend_quiet by reflexivity.
  wsimpl. rewrite L, O.
  unfold CSR_Delete, bind at 1. rewrite backend_quiet by reflexivity.
  wsimpl. rewrite L.
  rewrite sendCSR_step. cbv zeta.
  unfold getCSR, CSR_Get, bind at 1. rewrite backend_quiet by reflexivity.
  wsimpl.
  rewrite lookup_delete_eq. cbn [IsNotFound NewNotFound].
  unfold CSR_Create, bind. rewrite backend_quiet by reflexivity.
  wsimpl. cbn [Name newRequest]. rewrite lookup_delete_eq.
  eexists. split; [reflexivity |]. cbn. auto.
Qed.

Lemma NewCSR_inv (commonName : string) (hostList IPList : list string) (w w' : World)
    (r : outcome (bytes * bytes)) :
  NewCSR env commonName hostList IPList w = (r, w') ->
  secrets w' = secrets w /\ csrs w' = csrs w /\ nextUID w' = nextUID w
  /\ faults w' = faults w /\ timelines w' = timelines w /\ glog w' = glog w
  /\ keysDrawn w' = S (keysDrawn w)
  /\ ((exists generated, r = Ret generated) \/ (exists err, r = Fail err)).
Proof.
  unfold NewCSR, bind, newPrivateKey.
  destruct (rsa_GenerateKey env (keysDrawn w) rsaKeySize) as [privKey|err].
  - destruct (x509_CreateCertificateRequest env _ privKey) as [csr|err];
      intros [= <- <-]; cbn; repeat split; eauto.
  - intros [= <- <-]. cbn. repeat split; eauto.
Qed.

Lemma approveCSR_inv (csr : CertificateSigningRequest) (w w' : World)
    (r : outcome CertificateSigningRequest) :
  approveCSR csr w = (r, w') ->
  secrets w' = secrets w /\ nextUID w' = nextUID w /\ keysDrawn w' = keysDrawn w
  /\ timelines w' = timelines w
  /\ ((exists approved stored,
          r = Ret approved /\ UID approved = UID csr /\ Name approved = Name csr
          /\ Conditions (Status approved)
             = (Conditions (Status csr) ++ [mkCondition CertificateApproved "AutoApproved"
                                              "Auto approved by TiDB Operator"])%list
          /\ csrs w' = <[Name csr := stored]> (csrs w))
      \/ (exists err, r = Fail err /\ csrs w' = csrs w)).
Proof.
  unfold approveCSR, bind, orElse, ret.
  destruct (CSR_UpdateApproval _ w) as [r0 w1] eqn:U.
  apply CSR_UpdateApproval_inv in U
    as (H1 & H2 & H3 & H4 & H5 & [(stored & -> & Hc) | (err & -> & Hc)]);
    intros [= <- <-]; repeat (split; [assumption |]).
  - left. eexists _, stored. repeat split. exact Hc.
  - right. eauto.
Qed.

End SubmitFacts.

Section CreateSubmitFacts.

Context (env : Env).

(** [Create_submit], call by call. *)
Lemma Create_submit_step (fuel : nat) (ns instance commonName : string)
    (hostList IPList : list string) (csrName : string) (w : World) :
  Create_submit env fuel ns instance commonName hostList IPList csrName w =
  match NewCSR env commonName hostList IPList w with
  | (Ret generated, w1) =>
      match sendCSR env fuel ns instance (fst generated) csrName w1 with
      | (Ret csr, w2) =>
          match approveCSR csr w2 with
          | (Ret csr', w3) =>
              match CSR_Watch csrName (60 * 5) w3 with
              | (Ret watchCh, w4) => (Ret (csr', snd generated, watchCh), w4)
              | (Fail err, w4) =>
                  (Fail err,
                   set_glog (glog w4 ++ ["error watch CSR for [" +:+ ns +:+ "/" +:+ instance
                                          +:+ "]: " +:+ csrName]) w4)
              | (Panic msg, w4) => (Panic msg, w4)
              | (OutOfFuel, w4) => (OutOfFuel, w4)
              end
          | (Fail err, w3) => (Fail err, w3)
          | (Panic msg, w3) => (Panic msg, w3)
          | (OutOfFuel, w3) => (OutOfFuel, w3)
          end
      | (Fail err, w2) => (Fail err, w2)
      | (Panic msg, w2) => (Panic msg, w2)
      | (OutOfFuel, w2) => (OutOfFuel, w2)
      end
  | (Fail err, w1) =>
      (Fail (Errorf ("fail to generate new key and certificate for "
                     +:+ ns +:+ "/" +:+ csrName +:+ ", " +:+ Error err)), w1)
  | (Panic msg, w1) => (Panic msg, w1)
  | (OutOfFuel, w1) => (OutOfFuel, w1)
  end.
Proof.
  unfold Create_submit, bind, orElse.
  destruct (NewCSR env commonName hostList IPList w) as [[generated|err|msg|] w1];
    reflexivity.
Qed.

Lemma Create_submit_frame (fuel : nat) (ns instance commonName : string)
    (hostList IPList : list string) (csrName : string) (w w' : World)
    (r : outcome (CertificateSigningRequest * bytes * list occurrence)) :
  Create_submit env fuel ns instance commonName hostList IPList csrName w = (r, w') ->
  secrets w' = secrets w.
Proof.
  rewrite Create_submit_step.
  destruct (NewCSR env commonName hostList IPList w) as [r1 w1] eqn:N.
  apply NewCSR_inv in N as (N1 & _).
  destruct r1 as [generated|err|msg|]; try (intros [= <- <-]; assumption).
  destruct (sendCSR env fuel ns instance (fst generated) csrName w1) as [r2 w2] eqn:S.
  apply sendCSR_frame in S as (S1 & _).
  destruct r2 as [csr|err|msg|]; try (intros [= <- <-]; congruence).
  destruct (approveCSR csr w2) as [r3 w3] eqn:A.
  apply approveCSR_inv in A as (A1 & _).
  destruct r3 as [csr'|err|msg|]; try (intros [= <- <-]; congruence).
  destruct (CSR_Watch csrName (60 * 5) w3) as [r4 w4] eqn:W.
  apply CSR_Watch_inv in W as (W1 & _).
  destruct r4 as [watchCh|err|msg|]; intros [= <- <-]; wsimpl; congruence.
Qed.

(** What [Create] enters its loop with: a request that carries the one
    condition [approveCSR] appended and is stored under its name, and one
    more key drawn. *)
Lemma Create_submit_Ret (fuel : nat) (ns instance commonName : string)
    (hostList IPList : list string) (csrName : string) (w w' : World)
    (csr : CertificateSigningRequest) (key : bytes) (watchCh : list occurrence) :
  Create_submit env fuel ns instance commonName hostList IPList csrName w
  = (Ret (csr, key, watchCh), w') ->
  Conditions (Status csr)
  = [mkCondition CertificateApproved "AutoApproved" "Auto approved by TiDB Operator"]
  /\ is_Some (csrs w' !! csrName)
  /\ keysDrawn w' = S (keysDrawn w).
Proof.
  rewrite Create_submit_step.
  destruct (NewCSR env commonName hostList IPList w) as [r1 w1] eqn:N.
  apply NewCSR_inv in N as (_ & _ & _ & _ & _ & _ & N1 & _).
  destruct r1 as [generated|err|msg|]; try discriminate.
  destruct (sendCSR env fuel ns instance (fst generated) csrName w1) as [r2 w2] eqn:S.
  destruct r2 as [resp|err|msg|]; try discriminate.
  pose proof (sendCSR_frame _ _ _ _ _ _ _ _ _ S) as (_ & S1 & _).
  apply sendCSR_Ret in S as (S2 & S3 & S4).
  destruct (approveCSR resp w2) as [r3 w3] eqn:A.
  apply approveCSR_inv in A
    as (_ & _ & A1 & _ & [(approved & stored & -> & _ & _ & A2 & A3) | (err & -> & _)]);
    [| discriminate].
  destruct (CSR_Watch csrName (60 * 5) w3) as [r4 w4] eqn:W.
  apply CSR_Watch_inv in W as (_ & W1 & _ & W2 & _).
  destruct r4 as [t|err|msg|]; try discriminate.
  intros [= <- <- <- <-]. rewrite A2, S4. split; [reflexivity |]. split.
  - rewrite W1, A3, S3, lookup_insert_eq. eauto.
  - congruence.
Qed.

Lemma Create_submit_foreign (fuel : nat) (ns instance commonName : string)
    (hostList IPList : list string) (csrName : string) (w : World)
    (csr : CertificateSigningRequest) :
  csrs w !! csrName = Some csr -> owned env ns instance csr = false ->
  exists err w',
    Create_submit env (S fuel) ns instance commonName hostList IPList csrName w
    = (Fail err, w')
    /\ csrs w' = csrs w /\ secrets w' = secrets w.
Proof.
  intros L O. rewrite Create_submit_step.
  destruct (NewCSR env commonName hostList IPList w) as [r1 w1] eqn:N.
  apply NewCSR_inv in N
    as (N1 & N2 & _ & _ & _ & _ & _ & [(generated & ->) | (err & ->)]); [| eauto].
  rewrite <- N2 in L.
  destruct (sendCSR_foreign env fuel ns instance (fst generated) csrName w1 csr L O)
    as (err & w2 & -> & S1 & S2 & _).
  exists err, w2. repeat split; congruence.
Qed.

End CreateSubmitFacts.

(** ** C3: the retry of the submission step *)

(** C3. When [sendCSR] finds a resource of this system under the derived
    name it deletes it and tries the creation again; it calls itself at
    most once, so two levels give its result whatever depth it is allowed,
    and that result is never the exhaustion of the depth: the submission
    step returns on every input. *)
Theorem sendCSR_retries_at_most_once
    (env : Env) (ns instance : string) (rawCSR : bytes) (csrName : string) (w : World) :
  (forall n, sendCSR env (S (S n)) ns instance rawCSR csrName w
             = sendCSR env 2 ns instance rawCSR csrName w)
  /\ fst (sendCSR env 2 ns instance rawCSR csrName w) <> OutOfFuel
  /\ (forall stale,
         csrs w !! csrName = Some stale -> owned env ns instance stale = true ->
         faults w = [] ->
         let request := newRequest env ns instance rawCSR csrName in
         let resp :=
           mkCSR csrName (nextUID w) (Labels request) (Spec request) (Status request) in
         exists w',
           sendCSR env 2 ns instance rawCSR csrName w = (Ret resp, w')
           /\ csrs w' = <[csrName := resp]> (delete csrName (csrs w))
           /\ nextUID w' = S (nextUID w)).
Proof.
  split; [| split].
  - intros n. apply sendCSR_two_levels.
  - apply (sendCSR_two_levels env ns instance rawCSR csrName w 0).
  - intros stale L O F. apply (sendCSR_stale env ns instance rawCSR csrName w stale L O F).
Qed.

Section CreateFacts.

Context (env : Env).

(** [Create], call by call. *)
Lemma Create_step (fuel : nat) (ns instance commonName : string)
    (hostList IPList : list string) (component suffix : string) (w : World) :
  Create env fuel ns instance commonName hostList IPList component suffix w =
  let csrName := csrNameOf instance suffix in
  match CheckSecret env ns csrName w with
  | (true, w1) =>
      (Ret tt, set_glog (glog w1 ++ ["Secret " +:+ csrName
                 +:+ " already exist, reusing the key pair. TidbCluster: "
                 +:+ ns +:+ "/" +:+ csrName]) w1)
  | (false, w1) =>
      match Create_submit env fuel ns instance commonName hostList IPList csrName w1 with
      | (Ret (csr, key, watchCh), w2) =>
          Create_loop env ns instance component suffix csrName csr key true watchCh w2
      | (Fail err, w2) => (Fail err, w2)
      | (Panic msg, w2) => (Panic msg, w2)
      | (OutOfFuel, w2) => (OutOfFuel, w2)
      end
  end.
Proof.
  unfold Create, bind. cbv zeta.
  destruct (CheckSecret env ns (csrNameOf instance suffix) w) as [[|] w1]; [reflexivity |].
  destruct (Create_submit env fuel ns instance commonName hostList IPList _ w1)
    as [[[[csr key] watchCh]|err|msg|] w2]; reflexivity.
Qed.

(** The accepting branch of the loop, call by call. *)
Lemma Create_loop_proceed (ns instance component suffix csrName : string)
    (csr : CertificateSigningRequest) (key : bytes) (tick : bool)
    (event : WatchEvent) (rest : list occurrence) (certificate : bytes) (w : World) :
  examine csr event = Proceed certificate ->
  Create_loop env ns instance component suffix csrName csr key tick (Event event :: rest) w =
  match SaveToSecret env ns instance component suffix certificate key
          (set_glog (glog w ++ ["signed certificate for [" +:+ ns +:+ "/" +:+ instance
                                +:+ "]: " +:+ csrName]) w) with
  | (Ret _, w1) => CSR_Delete csrName w1
  | (Fail err, w1) => (Fail err, w1)
  | (Panic msg, w1) => (Panic msg, w1)
  | (OutOfFuel, w1) => (OutOfFuel, w1)
  end.
Proof.
  intros E. cbn [Create_loop]. rewrite E. unfold bind, glog_Infof.
  destruct (SaveToSecret env ns instance component suffix certificate key _)
    as [[[]|err|msg|] w1]; reflexivity.
Qed.

Lemma same_but_log_refl (w : World) : same_but_log w w.
Proof. repeat split. Qed.

Lemma same_but_log_line (w w' : World) (lines : list string) :
  same_but_log w w' -> same_but_log w (set_glog lines w').
Proof. intros ((H1 & H2 & H3 & H4 & H5) & H6). repeat split; assumption. Qed.

(** Occurrences the loop passes over leave it where it was, up to the
    log and the tick. *)
Lemma Create_loop_passes (ns instance component suffix csrName : string)
    (csr : CertificateSigningRequest) (key : bytes) (before : list occurrence) :
  Forall (passed_over csr) before ->
  forall (tick : bool) (w : World),
  exists (tick' : bool) (w0 : World),
    same_but_log w w0
    /\ forall rest,
         Create_loop env ns instance component suffix csrName csr key tick (before ++ rest) w
         = Create_loop env ns instance component suffix csrName csr key tick' rest w0.
Proof.
  induction 1 as [|o before Ho _ IH]; intros tick w.
  - exists tick, w. split; [apply same_but_log_refl | reflexivity].
  - destruct o as [|event].
    + destruct tick.
      * destruct (IH false (set_glog (glog w ++ [stillPending ns instance csrName]) w))
          as (tick' & w0 & Hs & Hr).
        exists tick', w0. split.
        -- destruct Hs as ((H1 & H2 & H3 & H4 & H5) & H6). repeat split; assumption.
        -- intros rest. rewrite <- Hr. reflexivity.
      * destruct (IH false w) as (tick' & w0 & Hs & Hr).
        exists tick', w0. split; [assumption |]. intros rest. rewrite <- Hr. reflexivity.
    + destruct (IH tick w) as (tick' & w0 & Hs & Hr).
      exists tick', w0. split; [assumption |]. intros rest. rewrite <- Hr.
      cbn in Ho. cbn [app Create_loop]. now rewrite Ho.
Qed.

Lemma Create_loop_closed (ns instance component suffix csrName : string)
    (csr : CertificateSigningRequest) (key : bytes) (timeline : list occurrence)
    (tick : bool) (w : World) :
  Forall (passed_over csr) timeline ->
  exists w',
    Create_loop env ns instance component suffix csrName csr key tick timeline w
    = (Fail (Errorf ("fail to get signed certificate for " +:+ csrName)), w')
    /\ same_but_log w w'.
Proof.
  intros H.
  destruct (Create_loop_passes ns instance component suffix csrName csr key timeline H tick w)
    as (tick' & w0 & Hs & Hr).
  specialize (Hr []). rewrite app_nil_r in Hr. rewrite Hr. exists w0. split; [| assumption].
  reflexivity.
Qed.

(** A loop that returns success has stored the secret. *)
Lemma Create_loop_Ret (ns instance component suffix csrName : string)
    (csr : CertificateSigningRequest) (key : bytes) (timeline : list occurrence) :
  forall (tick : bool) (w w' : World),
    Create_loop env ns instance component suffix csrName csr key tick timeline w
    = (Ret tt, w') ->
    is_Some (secrets w' !! (ns, instance +:+ "-" +:+ suffix)).
Proof.
  induction timeline as [|o timeline IH]; intros tick w w'.
  - cbn. discriminate.
  - destruct o as [|event].
    + cbn [Create_loop]. destruct tick; [| apply IH].
      unfold bind, glog_Infof. apply IH.
    + destruct (examine csr event) as [| certificate | |] eqn:E.
      * cbn [Create_loop]. rewrite E. apply IH.
      * rewrite (Create_loop_proceed _ _ _ _ _ _ _ _ _ _ certificate) by assumption.
        destruct (SaveToSecret env ns instance component suffix certificate key _)
          as [r w1] eqn:S.
        apply SaveToSecret_inv in S
          as (_ & _ & _ & _ & [(-> & _ & _ & s & _ & _ & _ & Hs) | (err & -> & _)]);
          [| discriminate].
        intros D. apply CSR_Delete_inv in D as (D1 & _). rewrite D1, Hs, lookup_insert_eq.
        eauto.
      * cbn [Create_loop]. rewrite E. discriminate.
      * cbn [Create_loop]. rewrite E. discriminate.
Qed.

End CreateFacts.

(** With one condition on the request at hand the index of the loop is 0,
    and an event that passed the length test has a condition there. *)
Lemma examine_in_range (csr : CertificateSigningRequest) (event : WatchEvent) :
  length (Conditions (Status csr)) = 1 -> examine csr event <> IndexOutOfRange.
Proof.
  intros Hlen. unfold examine. rewrite Hlen.
  destruct (Object event) as [updatedCSR | message]; [| discriminate].
  destruct (Conditions (Status updatedCSR)) as [|cond rest]; cbn [length Nat.eqb].
  - discriminate.
  - change (index (cond :: rest) (Z.of_nat 1 - 1)) with (Some cond). cbv beta iota zeta.
    destruct (Nat.eqb (UID updatedCSR) (UID csr)
              && String.eqb (Type_ cond) CertificateApproved);
      [destruct (Certificate (Status updatedCSR)) |]; discriminate.
Qed.

(** Only an event whose object is no request fails the type assertion. *)
Lemma examine_InterfaceConversion (csr : CertificateSigningRequest) (event : WatchEvent) :
  examine csr event = InterfaceConversion <->
  exists message, Object event = StatusObject message.
Proof.
  unfold examine. destruct (Object event) as [updatedCSR | message].
  - split; [| intros (m & [=])].
    destruct (Nat.eqb (length (Conditions (Status updatedCSR))) 0); [discriminate |].
    destruct (index _ _) as [cond|]; [| discriminate]. cbv beta iota zeta.
    destruct (Nat.eqb (UID updatedCSR) (UID csr)
              && String.eqb (Type_ cond) CertificateApproved);
      [destruct (Certificate (Status updatedCSR)) |]; discriminate.
  - split; eauto.
Qed.

Lemma not_accepted_passed_over (csr : CertificateSigningRequest) (timeline : list occurrence) :
  length (Conditions (Status csr)) = 1 ->
  Forall carries_request timeline ->
  Forall (fun o => ~ accepted csr o) timeline ->
  Forall (passed_over csr) timeline.
Proof.
  intros Hlen Hc H. induction H as [|o timeline Ho _ IH]; constructor.
  - destruct o as [|event]; cbn in *; [exact I |].
    pose proof (examine_in_range csr event Hlen) as Hr.
    apply Forall_inv in Hc. cbn in Hc. destruct Hc as (updatedCSR & Hc).
    destruct (examine csr event) as [| certificate | |] eqn:E;
      [reflexivity | | contradiction |].
    + exfalso. apply Ho. eauto.
    + apply examine_InterfaceConversion in E as (message & E). congruence.
  - apply IH. now apply Forall_inv_tail in Hc.
Qed.

(** An event the loop neither accepts nor can convert ends the call: the
    loop passes over what comes before it and panics there. *)
Lemma Create_loop_conversion (env : Env) (ns instance component suffix csrName : string)
    (csr : CertificateSigningRequest) (key : bytes) (before : list occurrence) :
  length (Conditions (Status csr)) = 1 ->
  Forall (fun o => ~ accepted csr o) before ->
  ~ Forall carries_request before ->
  forall (tick : bool) (w : World) (rest : list occurrence),
  exists w',
    Create_loop env ns instance component suffix csrName csr key tick (before ++ rest) w
    = (Panic interfaceConversion, w')
    /\ same_but_log w w'.
Proof.
  intros Hlen H. induction H as [|o before Ho _ IH]; intros R tick w rest.
  - exfalso. apply R. constructor.
  - destruct o as [|event].
    + assert (R' : ~ Forall carries_request before)
        by (intros F; apply R; constructor; [exact I | assumption]).
      destruct tick.
      * destruct (IH R' false (set_glog (glog w ++ [stillPending ns instance csrName]) w) rest)
          as (w' & Hr & Hs).
        exists w'. split; [exact Hr |].
        destruct Hs as ((H1 & H2 & H3 & H4 & H5) & H6). repeat split; assumption.
      * destruct (IH R' false w rest) as (w' & Hr & Hs). exists w'. split; assumption.
    + pose proof (examine_in_range csr event Hlen) as Hr.
      destruct (examine csr event) as [| certificate | |] eqn:E.
      * assert (R' : ~ Forall carries_request before).
        { intros F. apply R. constructor; [| assumption]. cbn.
          unfold examine in E. destruct (Object event) as [updatedCSR | message];
            [eauto | discriminate]. }
        destruct (IH R' tick w rest) as (w' & Hr' & Hs). exists w'.
        split; [| assumption]. cbn [app Create_loop]. now rewrite E.
      * exfalso. apply Ho. cbn. eauto.
      * contradiction.
      * exists w. split; [| apply same_but_log_refl]. cbn [app Create_loop]. now rewrite E.
Qed.

(** ** The depth given to [Create] *)

Section FuelFacts.

Context (env : Env).

Lemma Create_loop_returns (ns instance component suffix csrName : string)
    (csr : CertificateSigningRequest) (key : bytes) (timeline : list occurrence) :
  forall (tick : bool) (w : World),
    fst (Create_loop env ns instance component suffix csrName csr key tick timeline w)
    <> OutOfFuel.
Proof.
  induction timeline as [|o timeline IH]; intros tick w.
  - cbn. discriminate.
  - destruct o as [|event].
    + cbn [Create_loop]. destruct tick; [| apply IH].
      unfold bind, glog_Infof. apply IH.
    + destruct (examine csr event) as [| certificate | |] eqn:E.
      * cbn [Create_loop]. rewrite E. apply IH.
      * rewrite (Create_loop_proceed _ _ _ _ _ _ _ _ _ _ _ certificate) by assumption.
        destruct (SaveToSecret env ns instance component suffix certificate key _)
          as [r w1] eqn:S.
        apply SaveToSecret_inv in S as (_ & _ & _ & _ & [(-> & _) | (err & -> & _)]);
          [| discriminate].
        destruct (CSR_Delete csrName w1) as [r2 w2] eqn:D.
        apply CSR_Delete_inv in D as (_ & _ & _ & _ & _ & [(-> & _) | (err & -> & _)]);
          discriminate.
      * cbn [Create_loop]. rewrite E. discriminate.
      * cbn [Create_loop]. rewrite E. discriminate.
Qed.

Lemma Create_submit_two_levels (ns instance commonName : string)
    (hostList IPList : list string) (csrName : string) (w : World) (n : nat) :
  Create_submit env (S (S n)) ns instance commonName hostList IPList csrName w
  = Create_submit env 2 ns instance commonName hostList IPList csrName w
  /\ fst (Create_submit env 2 ns instance commonName hostList IPList csrName w)
     <> OutOfFuel.
Proof.
  rewrite !Create_submit_step.
  destruct (NewCSR env commonName hostList IPList w) as [r1 w1] eqn:N.
  apply NewCSR_inv in N as (_ & _ & _ & _ & _ & _ & _ & [(generated & ->) | (err & ->)]);
    [| split; [reflexivity | discriminate]].
  destruct (sendCSR_two_levels env ns instance (fst generated) csrName w1 n) as (-> & S).
  destruct (sendCSR env 2 ns instance (fst generated) csrName w1) as [[csr|err|msg|] w2];
    try (split; [reflexivity | discriminate]); [| contradiction].
  destruct (approveCSR csr w2) as [r3 w3] eqn:A.
  apply approveCSR_inv in A
    as (_ & _ & _ & _ & [(approved & stored & -> & _) | (err & -> & _)]);
    [| split; [reflexivity | discriminate]].
  destruct (CSR_Watch csrName (60 * 5) w3) as [r4 w4] eqn:W.
  apply CSR_Watch_inv in W as (_ & _ & _ & _ & _ & [(t & ->) | (err & ->)]);
    (split; [reflexivity | discriminate]).
Qed.

(** Two levels are all [Create] ever uses, and with them it returns. *)
Lemma Create_two_levels (ns instance commonName : string)
    (hostList IPList : list string) (component suffix : string) (w : World) (n : nat) :
  Create env (S (S n)) ns instance commonName hostList IPList component suffix w
  = Create env 2 ns instance commonName hostList IPList component suffix w
  /\ fst (Create env 2 ns instance commonName hostList IPList component suffix w)
     <> OutOfFuel.
Proof.
  rewrite !Create_step. cbv zeta.
  destruct (CheckSecret env ns (csrNameOf instance suffix) w) as [[|] w1];
    [split; [reflexivity | discriminate] |].
  destruct (Create_submit_two_levels ns instance commonName hostList IPList
              (csrNameOf instance suffix) w1 n) as (-> & S).
  destruct (Create_submit env 2 ns instance commonName hostList IPList _ w1)
    as [[[[csr key] watchCh]|err|msg|] w2];
    try (split; [reflexivity | discriminate]); [| contradiction].
  split; [reflexivity | apply Create_loop_returns].
Qed.

End FuelFacts.

(** ** C2: a request of someone else under the derived name *)

(** C2, as amended. When the derived name is that of a stored request
    whose labels are not this system's, [Create] never deletes or changes
    a stored request; it returns an error whenever the secret check did
    not already end it, and success when that check found a usable
    secret. *)
Theorem Create_keeps_foreign_request
    (env : Env) (fuel : nat) (ns instance commonName : string)
    (hostList IPList : list string) (component suffix : string) (w : World)
    (foreign : CertificateSigningRequest) :
  csrs w !! csrNameOf instance suffix = Some foreign ->
  owned env ns instance foreign = false ->
  csrs (snd (Create env (S fuel) ns instance commonName hostList IPList component suffix w))
  = csrs w
  /\ (fst (CheckSecret env ns (csrNameOf instance suffix) w) = false ->
      exists err,
        fst (Create env (S fuel) ns instance commonName hostList IPList component suffix w)
        = Fail err)
  /\ (fst (CheckSecret env ns (csrNameOf instance suffix) w) = true ->
      fst (Create env (S fuel) ns instance commonName hostList IPList component suffix w)
      = Ret tt).
Proof.
  intros L O. rewrite Create_step. cbv zeta.
  pose proof (CheckSecret_frame env ns (csrNameOf instance suffix) w) as (_ & C2 & _).
  destruct (CheckSecret env ns (csrNameOf instance suffix) w) as [[|] w1]; cbn in C2.
  - cbn. split; [assumption |]. split; [discriminate | reflexivity].
  - rewrite <- C2 in L.
    destruct (Create_submit_foreign env fuel ns instance commonName hostList IPList
                _ w1 foreign L O) as (err & w2 & -> & S1 & _).
    cbn. split; [congruence |]. split; [eauto | discriminate].
Qed.

(** ** The end of the wait *)

(** X21. When [Create] reached its loop and the watch delivers nothing but
    ticks and events the test of the loop passes over (lines 114 to 123
    answer "continue") before its channel closes, [Create] returns the
    error that names the request, and the secrets are those it started
    with. *)
Theorem Create_fails_when_watch_closes
    (env : Env) (fuel : nat) (ns instance commonName : string)
    (hostList IPList : list string) (component suffix : string) (w w1 w2 : World)
    (csr : CertificateSigningRequest) (key : bytes) (watchCh : list occurrence) :
  CheckSecret env ns (csrNameOf instance suffix) w = (false, w1) ->
  Create_submit env fuel ns instance commonName hostList IPList
    (csrNameOf instance suffix) w1 = (Ret (csr, key, watchCh), w2) ->
  Forall (passed_over csr) watchCh ->
  fst (Create env fuel ns instance commonName hostList IPList component suffix w)
  = Fail (Errorf ("fail to get signed certificate for " +:+ csrNameOf instance suffix))
  /\ secrets (snd (Create env fuel ns instance commonName hostList IPList component suffix w))
     = secrets w.
Proof.
  intros C S P. rewrite Create_step. cbv zeta. rewrite C, S.
  destruct (Create_loop_closed env ns instance component suffix (csrNameOf instance suffix)
              csr key watchCh true w2 P) as (w3 & -> & ((L1 & _) & _)).
  cbn. split; [reflexivity |].
  apply Create_submit_frame in S.
  pose proof (CheckSecret_frame env ns (csrNameOf instance suffix) w) as (C1 & _).
  rewrite C in C1. cbn in C1. congruence.
Qed.

(** C7. At the first event the loop accepts, [Create] stores the secret:
    when that succeeds, what the deletion of the request returns is what
    [Create] returns; when it fails, [Create] returns that failure and the
    request is still stored as it was.  The loop reaches that event when
    the events before it carry requests; when one of them carries another
    object, the type assertion of line 114 ends the call before. *)
Theorem Create_persists_then_deletes
    (env : Env) (fuel : nat) (ns instance commonName : string)
    (hostList IPList : list string) (component suffix : string) (w w1 w2 : World)
    (csr : CertificateSigningRequest) (key : bytes)
    (before after : list occurrence) (event : WatchEvent) (certificate : bytes) :
  CheckSecret env ns (csrNameOf instance suffix) w = (false, w1) ->
  Create_submit env fuel ns instance commonName hostList IPList
    (csrNameOf instance suffix) w1
  = (Ret (csr, key, (before ++ Event event :: after)%list), w2) ->
  Forall (fun o => ~ accepted csr o) before ->
  examine csr event = Proceed certificate ->
  (Forall carries_request before ->
   exists w3,
     same_but_log w2 w3
     /\ match SaveToSecret env ns instance component suffix certificate key w3 with
        | (Ret _, w4) =>
            Create env fuel ns instance commonName hostList IPList component suffix w
            = CSR_Delete (csrNameOf instance suffix) w4
        | (saved, w4) =>
            Create env fuel ns instance commonName hostList IPList component suffix w
            = (saved, w4)
            /\ csrs w4 = csrs w2
            /\ is_Some (csrs w4 !! csrNameOf instance suffix)
        end)
  /\ (~ Forall carries_request before ->
      exists w3,
        same_but_log w2 w3
        /\ Create env fuel ns instance commonName hostList IPList component suffix w
           = (Panic interfaceConversion, w3)).
Proof.
  intros C S P E. rewrite Create_step. cbv zeta. rewrite C, S.
  assert (Hlen : length (Conditions (Status csr)) = 1)
    by (apply Create_submit_Ret in S as (S0 & _); now rewrite S0).
  split; intros R.
  - apply (not_accepted_passed_over _ _ Hlen R) in P.
    destruct (Create_loop_passes env ns instance component suffix (csrNameOf instance suffix)
                csr key before P true w2) as (tick' & w0 & Hs & Hr).
    rewrite Hr, (Create_loop_proceed _ _ _ _ _ _ _ _ _ _ _ certificate) by assumption.
    exists (set_glog (glog w0 ++ ["signed certificate for [" +:+ ns +:+ "/" +:+ instance
                                    +:+ "]: " +:+ csrNameOf instance suffix]) w0).
    split; [apply same_but_log_line; exact Hs |].
    destruct (SaveToSecret env ns instance component suffix certificate key _)
      as [saved w4] eqn:V.
    apply SaveToSecret_inv in V as (V1 & _).
    apply Create_submit_Ret in S as (_ & S2 & _).
    destruct Hs as ((_ & H2 & _) & _). wsimpl.
    destruct saved as [[]|err|msg|]; try reflexivity;
      (split; [reflexivity | split; [congruence | rewrite V1, H2; assumption]]).
  - destruct (Create_loop_conversion env ns instance component suffix
                (csrNameOf instance suffix) csr key before Hlen P R true w2
                (Event event :: after)) as (w3 & Hr & Hs).
    exists w3. split; assumption.
Qed.

(** ** C1: calling again *)

(** X15. For a suffix that is not empty: after [Create] returned success, a
    second call with the same arguments, made while the backend serves the
    read of the secret and the secret stored under the derived name passes
    the checks of [CheckSecret], returns success at the secret check: no
    request is created or deleted, no key is drawn, no secret is
    written. *)
Lemma Create_again_stops_at_secret_check
    (env : Env) (fuel : nat) (ns instance commonName : string)
    (hostList IPList : list string) (component suffix : string) (w w' : World) :
  suffix <> "" ->
  Create env fuel ns instance commonName hostList IPList component suffix w = (Ret tt, w') ->
  served w' ->
  (forall secret,
      secrets w' !! (ns, csrNameOf instance suffix) = Some secret ->
      validate env ns (csrNameOf instance suffix)
        (data_get (Data secret) "cert") (data_get (Data secret) "key") = None) ->
  exists w'',
    Create env fuel ns instance commonName hostList IPList component suffix w' = (Ret tt, w'')
    /\ same_cluster w' w''.
Proof.
  intros Hsuffix First Hserved Hvalid.
  assert (Hname : csrNameOf instance suffix = instance +:+ "-" +:+ suffix).
  { unfold csrNameOf. destruct (String.eqb_spec suffix ""); [contradiction | reflexivity]. }
  assert (Hstored : is_Some (secrets w' !! (ns, csrNameOf instance suffix))).
  { rewrite Create_step in First. cbv zeta in First.
    pose proof (CheckSecret_frame env ns (csrNameOf instance suffix) w) as (F1 & _).
    pose proof (CheckSecret_true env ns (csrNameOf instance suffix) w) as T.
    destruct (CheckSecret env ns (csrNameOf instance suffix) w) as [[|] w1]; cbn in F1, T.
    - injection First as <-. wsimpl. rewrite F1.
      destruct T as [T _]. destruct (T eq_refl) as (_ & secret & L & _). eauto.
    - destruct (Create_submit env fuel ns instance commonName hostList IPList _ w1)
        as [[[[csr key] watchCh]|err|msg|] w2]; try discriminate.
      rewrite Hname. eapply Create_loop_Ret. exact First. }
  destruct Hstored as (secret & L).
  assert (T : fst (CheckSecret env ns (csrNameOf instance suffix) w') = true).
  { apply CheckSecret_true. split; [assumption |]. exists secret. auto. }
  pose proof (CheckSecret_frame env ns (csrNameOf instance suffix) w') as F.
  rewrite Create_step. cbv zeta.
  destruct (CheckSecret env ns (csrNameOf instance suffix) w') as [b w1]. cbn in T, F.
  subst b. eexists. split; [reflexivity |].
  destruct F as (F1 & F2 & F3 & F4 & F5). repeat split; assumption.
Qed.

(** ** C5: the tick *)

Lemma count_line_app (line : string) (a b : list string) :
  count_line line (a ++ b) = count_line line a + count_line line b.
Proof. induction a as [|l a IH]; cbn; [reflexivity | rewrite IH; lia]. Qed.

Lemma count_line_self (line : string) : count_line line [line] = 1.
Proof. cbn. now rewrite String.eqb_refl. Qed.

Section TickFacts.

Context (env : Env).

Lemma SaveToSecret_glog (ns instance component suffix : string) (cert key : bytes)
    (w w' : World) (r : outcome unit) :
  SaveToSecret env ns instance component suffix cert key w = (r, w') ->
  exists shown,
    glog w' = (glog w ++ ["save cert to secret " +:+ ns +:+ "/" +:+ secretNameOf instance suffix
                           +:+ ", error: " +:+ shown])%list.
Proof.
  unfold SaveToSecret, Secrets_Create, bind.
  destruct (backend w) as [[[]|err|msg|] w1] eqn:B;
    apply backend_inv in B as (_ & Hg & [(E & _) | (m & E & _)]); try discriminate;
    cbn [secretName].
  - destruct (secrets w1 !! (ns, secretNameOf instance suffix)) as [s|];
      intros [= <- <-]; wsimpl; rewrite Hg; eauto.
  - intros [= <- <-]. wsimpl. rewrite Hg. eauto.
Qed.

Lemma stillPending_not_signed (ns instance csrName rest : string) :
  String.eqb (stillPending ns instance csrName) ("signed certificate for [" +:+ rest) = false.
Proof. reflexivity. Qed.

Lemma stillPending_not_saved (ns instance csrName rest : string) :
  String.eqb (stillPending ns instance csrName) ("save cert to secret " +:+ rest) = false.
Proof. reflexivity. Qed.

(** The loop writes the pending line once if the timer still holds its
    value, and never otherwise. *)
Lemma Create_loop_ticks (ns instance component suffix csrName : string)
    (csr : CertificateSigningRequest) (key : bytes) (timeline : list occurrence) :
  forall (tick : bool) (w : World),
    count_line (stillPending ns instance csrName)
      (glog (snd (Create_loop env ns instance component suffix csrName csr key
                    tick timeline w)))
    <= count_line (stillPending ns instance csrName) (glog w) + (if tick then 1 else 0).
Proof.
  induction timeline as [|o timeline IH]; intros tick w.
  - cbn. lia.
  - destruct o as [|event].
    + cbn [Create_loop]. destruct tick.
      * unfold bind, glog_Infof.
        specialize (IH false (set_glog (glog w ++ [stillPending ns instance csrName]) w)).
        wsimpl. rewrite count_line_app, count_line_self in IH. lia.
      * apply IH.
    + destruct (examine csr event) as [| certificate | |] eqn:E.
      * cbn [Create_loop]. rewrite E. apply IH.
      * rewrite (Create_loop_proceed _ _ _ _ _ _ _ _ _ _ _ certificate) by assumption.
        destruct (SaveToSecret env ns instance component suffix certificate key _)
          as [r w1] eqn:S.
        apply SaveToSecret_glog in S as (shown & S). wsimpl.
        assert (G : count_line (stillPending ns instance csrName) (glog w1)
                    = count_line (stillPending ns instance csrName) (glog w)).
        { rewrite S, !count_line_app. cbn [count_line].
          rewrite stillPending_not_signed, stillPending_not_saved. lia. }
        destruct r as [[]|err|msg|]; wsimpl; try lia.
        destruct (CSR_Delete csrName w1) as [r2 w2] eqn:D.
        apply CSR_Delete_inv in D as (_ & _ & _ & _ & D & _). wsimpl. rewrite D. lia.
      * cbn [Create_loop]. rewrite E. cbn. lia.
      * cbn [Create_loop]. rewrite E. cbn. lia.
Qed.

End TickFacts.

(** C5. What the code does with the ten-second tick: a firing writes the
    pending line and goes on with the loop, and it never ends the wait;
    but the timer of [time.After] delivers one value only, so the line is
    written at most once however long the wait lasts: over three marks of
    ten seconds it is written once, not three times. *)
Theorem tick_fires_only_once
    (env : Env) (ns instance component suffix csrName : string)
    (csr : CertificateSigningRequest) (key : bytes) :
  (forall rest w,
      Create_loop env ns instance component suffix csrName csr key true
        (TenSeconds :: rest) w
      = Create_loop env ns instance component suffix csrName csr key false rest
          (set_glog (glog w ++ [stillPending ns instance csrName]) w))
  /\ (forall rest w,
         Create_loop env ns instance component suffix csrName csr key false
           (TenSeconds :: rest) w
         = Create_loop env ns instance component suffix csrName csr key false rest w)
  /\ (forall timeline w,
         count_line (stillPending ns instance csrName)
           (glog (snd (Create_loop env ns instance component suffix csrName csr key
                         true timeline w)))
         <= count_line (stillPending ns instance csrName) (glog w) + 1)
  /\ marks [TenSeconds; TenSeconds; TenSeconds] = 3
  /\ glog (snd (Create_loop env ns instance component suffix csrName csr key true
                  [TenSeconds; TenSeconds; TenSeconds] emptyWorld))
     = [stillPending ns instance csrName].
Proof.
  split; [reflexivity | split; [reflexivity | split; [| split; reflexivity]]].
  intros timeline w. apply (Create_loop_ticks env).
Qed.

(** ** C4: which events the loop accepts *)

(** With the one condition [approveCSR] appended on the request at hand,
    the loop reads the first condition of the event. *)
Lemma examine_reads_first_condition
    (csr : CertificateSigningRequest) (event : WatchEvent) (certificate : bytes) :
  length (Conditions (Status csr)) = 1 ->
  (examine csr event = Proceed certificate <->
   exists updatedCSR cond rest,
     Object event = CSRObject updatedCSR
     /\ Conditions (Status updatedCSR) = cond :: rest
     /\ UID updatedCSR = UID csr
     /\ Type_ cond = "Approved"
     /\ Certificate (Status updatedCSR) = Some certificate).
Proof.
  intros Hlen. unfold examine. rewrite Hlen.
  destruct (Object event) as [updatedCSR | message];
    [| split; [discriminate | intros (u & c & r & [=] & _)]].
  destruct (Conditions (Status updatedCSR)) as [|cond rest] eqn:Hc;
    cbn [length Nat.eqb].
  2: change (index (cond :: rest) (Z.of_nat 1 - 1)) with (Some cond).
  - split; [discriminate | intros (u & c & r & [= <-] & H & _); congruence].
  - destruct (Nat.eqb (UID updatedCSR) (UID csr)) eqn:Hu;
      destruct (String.eqb (Type_ cond) CertificateApproved) eqn:Ht;
      destruct (Certificate (Status updatedCSR)) as [c|] eqn:Hcert;
      cbn [andb]; (split; [try discriminate |]).
    + intros [= ->]. exists updatedCSR, cond, rest. apply Nat.eqb_eq in Hu.
      apply String.eqb_eq in Ht. auto.
    + intros (u & c' & r' & [= <-] & _ & _ & _ & H). congruence.
    + intros (u & c' & r' & [= <-] & _ & _ & _ & H). congruence.
    + intros (u & c' & r' & [= <-] & H & _ & Ht' & _). apply String.eqb_neq in Ht.
      rewrite Hc in H. injection H as <- <-. contradiction.
    + intros (u & c' & r' & [= <-] & H & _ & Ht' & _). apply String.eqb_neq in Ht.
      rewrite Hc in H. injection H as <- <-. contradiction.
    + intros (u & c' & r' & [= <-] & _ & Hu' & _). apply Nat.eqb_neq in Hu. contradiction.
    + intros (u & c' & r' & [= <-] & _ & Hu' & _). apply Nat.eqb_neq in Hu. contradiction.
    + intros (u & c' & r' & [= <-] & _ & Hu' & _). apply Nat.eqb_neq in Hu. contradiction.
    + intros (u & c' & r' & [= <-] & _ & Hu' & _). apply Nat.eqb_neq in Hu. contradiction.
Qed.

(** C4. The loop does not look at the latest condition of an event: it
    indexes the event's conditions by the length of the conditions of the
    request at hand, which is one in [Create], so it reads the first.  An
    event approved, signed and then denied is accepted and its certificate
    stored; an event denied and then approved is passed over and the wait
    ends with the channel. *)
Theorem Create_loop_reads_wrong_condition :
  (UID requestAtHand = 0 /\ Conditions (Status requestAtHand) = [approvedCondition])
  /\ (qualifies_by_spec requestAtHand eventDeniedLast = false
   /\ examine requestAtHand eventDeniedLast = Proceed signedCert
   /\ fst (runPd0 (labEnv true) "peer" (set_timelines [[Event eventDeniedLast]] emptyWorld))
      = Ret tt
   /\ secrets (snd (runPd0 (labEnv true) "peer"
                      (set_timelines [[Event eventDeniedLast]] emptyWorld)))
      !! ("db", "pd-0-peer") <> None)
  /\ (qualifies_by_spec requestAtHand eventApprovedLast = true
      /\ examine requestAtHand eventApprovedLast = Skip
      /\ fst (runPd0 (labEnv true) "peer"
                (set_timelines [[Event eventApprovedLast]] emptyWorld))
         = Fail (Errorf "fail to get signed certificate for pd-0-peer")
      /\ secrets (snd (runPd0 (labEnv true) "peer"
                         (set_timelines [[Event eventApprovedLast]] emptyWorld)))
         !! ("db", "pd-0-peer") = None).
Proof. vm_compute. repeat split; discriminate. Qed.

(** ** C6: the watch closes before a qualifying event *)

(** C6. When the watch closes after events the loop passes over, [Create]
    returns the error that names the request and stores no secret: the
    third run below.  But what the loop passes over is not what fails to
    qualify.  In the first run no event qualifies, since the one event with
    a certificate has "Denied" as its latest condition; the loop reads the
    first condition, accepts the event, and [Create] returns success with
    the secret stored.  In the second run the watch reports an error and
    closes; the type assertion of line 114 panics, and [Create] returns no
    error. *)
Theorem Create_watch_closes_without_qualifying_event :
  (UID requestAtHand = 0 /\ Conditions (Status requestAtHand) = [approvedCondition])
  /\ (qualifying_arrives requestAtHand (hd [] (timelines worldDenied)) = false
      /\ fst (runPd0 (labEnv true) "peer" worldDenied) = Ret tt
      /\ secrets worldDenied !! ("db", "pd-0-peer") = None
      /\ (fun secret => data_get (Data secret) "cert")
           <$> secrets (snd (runPd0 (labEnv true) "peer" worldDenied)) !! ("db", "pd-0-peer")
         = Some signedCert)
  /\ (qualifying_arrives requestAtHand (hd [] (timelines worldError)) = false
      /\ fst (runPd0 (labEnv true) "peer" worldError) = Panic interfaceConversion
      /\ secrets (snd (runPd0 (labEnv true) "peer" worldError)) !! ("db", "pd-0-peer")
         = None)
  /\ (qualifying_arrives requestAtHand (hd [] (timelines worldSilent)) = false
      /\ fst (runPd0 (labEnv true) "peer" worldSilent)
         = Fail (Errorf "fail to get signed certificate for pd-0-peer")
      /\ secrets (snd (runPd0 (labEnv true) "peer" worldSilent)) !! ("db", "pd-0-peer")
         = None).
Proof. vm_compute. repeat split; reflexivity. Qed.

(** ** Runs of the scenario *)

(** Two of three addresses do not parse: the request carries them as nil
    addresses, and [NewCSR] succeeds. *)
Example NewCSR_malformed_run :
  IPAddresses (csrTemplate (labEnv true) "pd-0.db.svc" ["pd-0.db.svc"]
                 ["10.0.0.5"; "10.0.0.500"; "localhost"])
  = [Some [Byte.x0a; Byte.x00; Byte.x00; Byte.x05]; None; None]
  /\ fst (NewCSR (labEnv true) "pd-0.db.svc" ["pd-0.db.svc"]
            ["10.0.0.5"; "10.0.0.500"; "localhost"] emptyWorld)
     = Ret ([Byte.x10; Byte.x01], [Byte.x01]).
Proof. vm_compute. split; reflexivity. Qed.

(** A stale request of this system: one level of [sendCSR] is not enough,
    two delete it and store the new request under a new identity. *)
Example sendCSR_stale_run :
  owned (labEnv true) "db" "pd-0" staleRequest = true
  /\ fst (sendCSR (labEnv true) 1 "db" "pd-0" [Byte.x10; Byte.x01] "pd-0-peer" worldStale)
     = OutOfFuel
  /\ UID <$> csrs (snd (sendCSR (labEnv true) 2 "db" "pd-0" [Byte.x10; Byte.x01]
                          "pd-0-peer" worldStale)) !! "pd-0-peer" = Some 4
  /\ glog (snd (sendCSR (labEnv true) 2 "db" "pd-0" [Byte.x10; Byte.x01] "pd-0-peer"
                  worldStale))
     = ["found exist CSR db/pd-0-peer created by tidb-operator, overwriting";
        "exist old CSR deleted for [db/pd-0]: pd-0-peer";
        "CSR created for [db/pd-0]: pd-0-peer"].
Proof. vm_compute. repeat split. Qed.

(** With the suffix [peer], the call after a successful call changes
    nothing in the cluster. *)
Lemma Create_again_stops_at_secret_check_run :
  exists w'',
    runPd0 (labEnv true) "peer" (snd (runPd0 (labEnv true) "peer" worldSigned))
    = (Ret tt, w'')
    /\ same_cluster (snd (runPd0 (labEnv true) "peer" worldSigned)) w''.
Proof.
  apply (Create_again_stops_at_secret_check (labEnv true) 2 "db" "pd-0" "pd-0.db.svc"
           ["pd-0.db.svc"] ["10.0.0.5"] "pd" "peer" worldSigned).
  - discriminate.
  - vm_compute. reflexivity.
  - vm_compute. exact I.
  - intros secret H. vm_compute in H. injection H as <-. vm_compute. reflexivity.
Defined.

(** C1. Calling again after a success is meant to stop at the secret
    check, and with the suffix [peer] it does (the run above).  With the
    empty suffix it does not: the first call stores the secret as [pd-0-]
    and returns success; the second call checks [pd-0], finds no secret,
    draws a second key and creates a second request. *)
Theorem Create_again_reissues_with_empty_suffix :
  fst (runPd0 (labEnv true) "" worldSignedBare) = Ret tt
  /\ served (snd (runPd0 (labEnv true) "" worldSignedBare))
  /\ secrets (snd (runPd0 (labEnv true) "" worldSignedBare)) !! ("db", "pd-0-") <> None
  /\ secrets (snd (runPd0 (labEnv true) "" worldSignedBare))
      !! ("db", csrNameOf "pd-0" "") = None
  /\ fst (CheckSecret (labEnv true) "db" (csrNameOf "pd-0" "")
            (snd (runPd0 (labEnv true) "" worldSignedBare))) = false
  /\ keysDrawn (snd (runPd0 (labEnv true) "" worldSignedBare)) = 1
  /\ nextUID (snd (runPd0 (labEnv true) "" worldSignedBare)) = 1
  /\ keysDrawn (snd (runPd0 (labEnv true) ""
                       (snd (runPd0 (labEnv true) "" worldSignedBare)))) = 2
  /\ nextUID (snd (runPd0 (labEnv true) ""
                     (snd (runPd0 (labEnv true) "" worldSignedBare)))) = 2.
Proof. vm_compute. repeat split; discriminate. Qed.

(** With the trusted roots unreadable no secret is usable, and the
    foreign request makes [Create] fail and stays as it is. *)
Lemma Create_keeps_foreign_request_run :
  csrs (snd (runPd0 (labEnv false) "peer" worldForeign)) = csrs worldForeign
  /\ (fst (CheckSecret (labEnv false) "db" (csrNameOf "pd-0" "peer") worldForeign) = false ->
      exists err, fst (runPd0 (labEnv false) "peer" worldForeign) = Fail err)
  /\ (fst (CheckSecret (labEnv false) "db" (csrNameOf "pd-0" "peer") worldForeign) = true ->
      fst (runPd0 (labEnv false) "peer" worldForeign) = Ret tt).
Proof.
  apply (Create_keeps_foreign_request (labEnv false) 1 "db" "pd-0" "pd-0.db.svc"
           ["pd-0.db.svc"] ["10.0.0.5"] "pd" "peer" worldForeign foreignRequest).
  - vm_compute. reflexivity.
  - vm_compute. reflexivity.
Defined.

(** Beside a usable secret, a foreign request does not make [Create] fail. *)
Lemma Create_succeeds_beside_foreign_request :
  csrs worldForeign !! csrNameOf "pd-0" "peer" = Some foreignRequest
  /\ owned (labEnv true) "db" "pd-0" foreignRequest = false
  /\ fst (runPd0 (labEnv true) "peer" worldForeign) = Ret tt.
Proof. vm_compute. repeat split. Qed.

(** The watch of the scenario closes after two ticks, an unsigned event
    and an event of another request. *)
Lemma Create_fails_when_watch_closes_run :
  fst (runPd0 (labEnv true) "peer" worldSilent)
  = Fail (Errorf ("fail to get signed certificate for " +:+ csrNameOf "pd-0" "peer"))
  /\ secrets (snd (runPd0 (labEnv true) "peer" worldSilent)) = secrets worldSilent.
Proof.
  apply (Create_fails_when_watch_closes (labEnv true) 2 "db" "pd-0" "pd-0.db.svc"
           ["pd-0.db.svc"] ["10.0.0.5"] "pd" "peer" worldSilent worldSilent
           (snd (submitPd0 worldSilent)) requestAtHand [Byte.x01]
           [TenSeconds;
            TenSeconds;
            Event (eventFor "pd-0-peer" 0 [approvedCondition] None);
            Event (eventFor "pd-0-peer" 7 [approvedCondition] (Some signedCert))]).
  - vm_compute. reflexivity.
  - vm_compute. reflexivity.
  - repeat constructor; cbn; try tauto; intros (certificate & H); discriminate.
Defined.

(** The signed event of the scenario comes after a tick and an event
    without conditions. *)
Lemma Create_persists_then_deletes_run :
  exists w3,
    same_but_log (snd (submitPd0 worldSigned)) w3
    /\ match SaveToSecret (labEnv true) "db" "pd-0" "pd" "peer" signedCert [Byte.x01] w3 with
       | (Ret _, w4) =>
           runPd0 (labEnv true) "peer" worldSigned = CSR_Delete (csrNameOf "pd-0" "peer") w4
       | (saved, w4) =>
           runPd0 (labEnv true) "peer" worldSigned = (saved, w4)
           /\ csrs w4 = csrs (snd (submitPd0 worldSigned))
           /\ is_Some (csrs w4 !! csrNameOf "pd-0" "peer")
       end.
Proof.
  refine (proj1 (Create_persists_then_deletes (labEnv true) 2 "db" "pd-0" "pd-0.db.svc"
                   ["pd-0.db.svc"] ["10.0.0.5"] "pd" "peer" worldSigned worldSigned
                   (snd (submitPd0 worldSigned))
                   requestAtHand [Byte.x01]
                   [TenSeconds; Event (eventFor "pd-0-peer" 0 [] None)]
                   []
                   (eventFor "pd-0-peer" 0 [approvedCondition] (Some signedCert))
                   signedCert _ _ _ _) _).
  - vm_compute. reflexivity.
  - vm_compute. reflexivity.
  - repeat constructor; cbn; try tauto; intros (certificate & H); discriminate.
  - reflexivity.
  - repeat constructor. cbn. eauto.
Defined.

(** * Further properties *)

(** ** Secrets written and read back *)

Section SecretRoundTrip.

Context (env : Env).

Lemma LoadFromSecret_served (ns name : string) (w : World) (secret : Secret) :
  served w -> secrets w !! (ns, name) = Some secret ->
  fst (LoadFromSecret ns name w)
  = Ret (data_get (Data secret) "cert", data_get (Data secret) "key").
Proof.
  intros Hs L. unfold LoadFromSecret, bind.
  destruct (Secrets_Get ns name w) as [r w1] eqn:G.
  apply Secrets_Get_inv in G as (_ & _ & [(s & -> & _ & L' & _) | (err & -> & [H | H])]).
  - rewrite L in L'. injection L' as <-. reflexivity.
  - contradiction.
  - congruence.
Qed.

End SecretRoundTrip.

(** X1. What [SaveToSecret] stored is what [LoadFromSecret] reads back
    under instance, hyphen, suffix, when the backend serves the read. *)
Theorem SaveToSecret_then_LoadFromSecret
    (env : Env) (ns instance component suffix : string) (cert key : bytes)
    (w w' : World) :
  SaveToSecret env ns instance component suffix cert key w = (Ret tt, w') ->
  served w' ->
  fst (LoadFromSecret ns (instance +:+ "-" +:+ suffix) w') = Ret (cert, key).
Proof.
  intros S Hs.
  apply SaveToSecret_inv in S
    as (_ & _ & _ & _ & [(_ & _ & _ & secret & _ & <- & <- & E) | (err & [=] & _)]).
  apply LoadFromSecret_served; [assumption |]. rewrite E. apply lookup_insert_eq.
Qed.

(** X2. [SaveToSecret] never replaces a secret: when one is stored under
    the name it returns an error and the secrets stay as they are; in every
    case it writes exactly one line to the log. *)
Theorem SaveToSecret_never_overwrites
    (env : Env) (ns instance component suffix : string) (cert key : bytes) (w : World) :
  (is_Some (secrets w !! (ns, instance +:+ "-" +:+ suffix)) ->
   (exists err, fst (SaveToSecret env ns instance component suffix cert key w) = Fail err)
   /\ secrets (snd (SaveToSecret env ns instance component suffix cert key w)) = secrets w)
  /\ (forall k old, secrets w !! k = Some old ->
        secrets (snd (SaveToSecret env ns instance component suffix cert key w)) !! k
        = Some old)
  /\ length (glog (snd (SaveToSecret env ns instance component suffix cert key w)))
     = S (length (glog w)).
Proof.
  destruct (SaveToSecret env ns instance component suffix cert key w) as [r w'] eqn:S.
  pose proof (SaveToSecret_glog env _ _ _ _ _ _ _ _ _ S) as (shown & G).
  apply SaveToSecret_inv in S
    as (_ & _ & _ & _ & [(-> & _ & N & secret & _ & _ & _ & E) | (err & -> & E)]); cbn.
  - split; [| split].
    + intros (old & L). congruence.
    + intros k old L. rewrite E. rewrite lookup_insert_ne; [assumption |]. congruence.
    + rewrite G, length_app. cbn. lia.
  - split; [| split].
    + intros _. eauto.
    + intros k old L. now rewrite E.
    + rewrite G, length_app. cbn. lia.
Qed.

(** ** Ownership *)

Section OwnershipFacts.

Context (env : Env).

Lemma newRequest_labels (ns instance : string) (rawCSR : bytes) (csrName : string) :
  distinct_label_keys env ->
  label_get (Labels (newRequest env ns instance rawCSR csrName)) (NamespaceLabelKey env) = ns
  /\ label_get (Labels (newRequest env ns instance rawCSR csrName)) (ManagedByLabelKey env)
     = label_get (label_New env) (ManagedByLabelKey env)
  /\ label_get (Labels (newRequest env ns instance rawCSR csrName)) (InstanceLabelKey env)
     = instance.
Proof.
  intros (H1 & H2 & H3). unfold newRequest, label_get. cbn [Labels].
  split; [| split].
  - rewrite lookup_insert_ne by congruence. rewrite lookup_insert_ne by congruence.
    now rewrite lookup_insert_eq.
  - rewrite lookup_insert_ne by congruence. now rewrite lookup_insert_eq.
  - now rewrite lookup_insert_eq.
Qed.

Lemma owned_iff (ns instance : string) (csr : CertificateSigningRequest) :
  owned env ns instance csr = true <->
  label_get (Labels csr) (NamespaceLabelKey env) = ns
  /\ label_get (Labels csr) (ManagedByLabelKey env)
     = label_get (label_New env) (ManagedByLabelKey env)
  /\ label_get (Labels csr) (InstanceLabelKey env) = instance.
Proof.
  unfold owned. rewrite !andb_true_iff, !String.eqb_eq. tauto.
Qed.

(** A request [sendCSR] returns carries this system's labels. *)
Lemma sendCSR_Ret_owned (fuel : nat) (ns instance : string) (rawCSR : bytes)
    (csrName : string) (resp : CertificateSigningRequest) :
  distinct_label_keys env ->
  forall w w',
    sendCSR env fuel ns instance rawCSR csrName w = (Ret resp, w') ->
    owned env ns instance resp = true.
Proof.
  intros Hk. induction fuel as [|fuel IH]; intros w w'; [cbn; discriminate |].
  rewrite sendCSR_step. cbv zeta.
  destruct (getCSR env ns instance csrName w) as [[[csr|]|err|msg|] w1]; try discriminate.
  - destruct (CSR_Delete csrName _) as [[[]|err|msg|] w2]; try discriminate. apply IH.
  - destruct (CSR_Create _ w1) as [r1 w2] eqn:C.
    apply CSR_Create_inv in C
      as (_ & _ & _ & _ & [(_ & _ & _ & -> & _) | (e & -> & _)]); [| discriminate].
    intros [= <- <-]. apply owned_iff. cbn [Labels].
    apply (newRequest_labels ns instance rawCSR csrName Hk).
Qed.

End OwnershipFacts.

(** X3. A request that [sendCSR] returned is one [getCSR] takes for this
    system's own, for the same namespace and instance: on a backend that
    serves the read, [getCSR] answers that very request. *)
Theorem sendCSR_then_getCSR
    (env : Env) (fuel : nat) (ns instance : string) (rawCSR : bytes) (csrName : string)
    (w w' : World) (resp : CertificateSigningRequest) :
  distinct_label_keys env ->
  sendCSR env fuel ns instance rawCSR csrName w = (Ret resp, w') ->
  served w' ->
  owned env ns instance resp = true
  /\ fst (getCSR env ns instance csrName w') = Ret (Some resp).
Proof.
  intros Hk S Hs.
  pose proof (sendCSR_Ret_owned env fuel ns instance rawCSR csrName resp Hk w w' S) as O.
  split; [assumption |].
  apply sendCSR_Ret in S as (L & _).
  destruct (getCSR env ns instance csrName w') as [r w2] eqn:G.
  apply getCSR_inv in G
    as (_ & _ & [(_ & _ & [(c & -> & L' & _) | [(-> & L') | (c & err & -> & L' & O')]])
                 | (Hn & _)]); cbn; try congruence; contradiction.
Qed.

(** X4. A request built for one namespace and instance is not taken for
    the own of another: [owned] holds of it only for that namespace and
    that instance. *)
Theorem newRequest_owned_only_by_its_instance
    (env : Env) (ns instance ns' instance' : string) (rawCSR : bytes) (csrName : string) :
  distinct_label_keys env ->
  (owned env ns' instance' (newRequest env ns instance rawCSR csrName) = true
   <-> ns' = ns /\ instance' = instance).
Proof.
  intros Hk. rewrite owned_iff.
  destruct (newRequest_labels env ns instance rawCSR csrName Hk) as (-> & -> & ->).
  split; [intros (-> & _ & ->); auto | intros (-> & ->); auto].
Qed.

(** X5. A label that is absent reads as the empty string: a resource
    without labels is taken for this system's own exactly when the
    namespace, the instance and this system's managed-by value are all
    empty. *)
Theorem owned_without_labels
    (env : Env) (ns instance : string) (csr : CertificateSigningRequest) :
  Labels csr = ∅ ->
  (owned env ns instance csr = true
   <-> ns = "" /\ instance = "" /\ label_get (label_New env) (ManagedByLabelKey env) = "").
Proof.
  intros E. rewrite owned_iff. unfold label_get at 1 2 4. rewrite E, !lookup_empty. cbn.
  intuition congruence.
Qed.

(** X6. [getCSR] only reads.  On a backend that serves the read it
    answers no request and no error exactly when nothing is stored under
    the name, a request exactly when that request is stored and carries
    this system's labels, and an error that is not "not found" for a stored
    request with other labels. *)
Theorem getCSR_reads_only
    (env : Env) (ns instance csrName : string) (w : World) :
  same_cluster w (snd (getCSR env ns instance csrName w))
  /\ glog (snd (getCSR env ns instance csrName w)) = glog w
  /\ (fst (getCSR env ns instance csrName w) = Ret None
      <-> served w /\ csrs w !! csrName = None)
  /\ (forall csr,
        fst (getCSR env ns instance csrName w) = Ret (Some csr)
        <-> served w /\ csrs w !! csrName = Some csr /\ owned env ns instance csr = true)
  /\ (forall csr,
        served w -> csrs w !! csrName = Some csr -> owned env ns instance csr = false ->
        fst (getCSR env ns instance csrName w)
        = Fail (Errorf ("CSR " +:+ ns +:+ "/" +:+ csrName
                        +:+ " already exist, but not created by tidb-operator, skip it"))).
Proof.
  destruct (getCSR env ns instance csrName w) as [r w'] eqn:G.
  pose proof G as G0. unfold getCSR in G0.
  apply getCSR_inv in G
    as (Hc & Hg & [(Hs & _ & [(c & -> & L & O) | [(-> & L) | (c & err & -> & L & O)]])
                   | (Hn & err & ->)]); cbn [fst snd];
    (split; [assumption | split; [assumption |]]).
  - split; [| split].
    + split; [discriminate | intros (_ & L'); congruence].
    + intros csr. split; [intros [= <-]; auto | intros (_ & L' & _); congruence].
    + intros csr _ L' O'. congruence.
  - split; [| split].
    + split; auto.
    + intros csr. split; [discriminate | intros (_ & L' & _); congruence].
    + intros csr _ L' _. congruence.
  - split; [| split].
    + split; [discriminate | intros (_ & L'); congruence].
    + intros csr. split; [discriminate | intros (_ & L' & O'); congruence].
    + intros csr _ L' _. assert (csr = c) as -> by congruence.
      destruct (CSR_Get csrName w) as [r0 w0] eqn:CG.
      apply CSR_Get_inv in CG
        as (_ & _ & [(_ & _ & [(c' & -> & L2) | (e & -> & _ & L2)]) | (Hn & _)]);
        try congruence; try contradiction.
      assert (c' = c) as -> by congruence. rewrite O in G0. now injection G0 as <- _.
  - split; [| split].
    + split; [discriminate | intros (Hs & _); contradiction].
    + intros csr. split; [discriminate | intros (Hs & _); contradiction].
    + intros csr Hs. contradiction.
Qed.

(** ** What the submission changes *)

Section SubmissionEffects.

Context (env : Env).

(** The effect of [sendCSR] on the stored requests and on the identities
    given out. *)
Lemma sendCSR_effect (fuel : nat) (ns instance : string) (rawCSR : bytes)
    (csrName : string) :
  forall (w w' : World) (r : outcome CertificateSigningRequest),
    sendCSR env fuel ns instance rawCSR csrName w = (r, w') ->
    (forall n, n <> csrName -> csrs w' !! n = csrs w !! n)
    /\ match r with
       | Ret resp =>
           csrs w' !! csrName = Some resp /\ UID resp = nextUID w
           /\ nextUID w' = S (nextUID w)
       | _ =>
           nextUID w' = nextUID w
           /\ (csrs w' = csrs w \/ csrs w' = delete csrName (csrs w))
       end.
Proof.
  induction fuel as [|fuel IH]; intros w w' r.
  - cbn. intros [= <- <-]. auto.
  - rewrite sendCSR_step. cbv zeta.
    destruct (getCSR env ns instance csrName w) as [r0 w1] eqn:G.
    apply getCSR_inv in G as ((_ & G2 & G3 & _) & _ & _).
    destruct r0 as [[csr|]|err|msg|];
      try (intros [= <- <-]; split; [intros; congruence | split; [congruence | auto]]).
    + destruct (CSR_Delete csrName _) as [r1 w2] eqn:D.
      apply CSR_Delete_inv in D as (_ & D2 & _ & _ & _ & D6). wsimpl.
      destruct D6 as [(-> & _ & _ & _ & D6) | (err & -> & D6)].
      * intros H. apply IH in H as (H1 & H2). wsimpl. split.
        -- intros n Hn. rewrite H1, D6, G2 by assumption. now apply lookup_delete_ne.
        -- destruct r as [resp|err|msg|].
           ++ destruct H2 as (H2 & H3 & H4). repeat split; congruence.
           ++ destruct H2 as (H2 & [H3 | H3]); (split; [congruence |]); right;
                rewrite H3, D6, G2; [reflexivity | apply delete_delete_eq].
           ++ destruct H2 as (H2 & [H3 | H3]); (split; [congruence |]); right;
                rewrite H3, D6, G2; [reflexivity | apply delete_delete_eq].
           ++ destruct H2 as (H2 & [H3 | H3]); (split; [congruence |]); right;
                rewrite H3, D6, G2; [reflexivity | apply delete_delete_eq].
      * intros [= <- <-]. split; [intros; congruence | split; [congruence | left; congruence]].
    + destruct (CSR_Create _ w1) as [r1 w2] eqn:C.
      apply CSR_Create_inv in C
        as (_ & _ & _ & _ & [(_ & _ & _ & -> & C5 & C6) | (err & -> & C5 & C6)]);
        intros [= <- <-]; wsimpl; cbn [Name newRequest] in *.
      * split.
        -- intros n Hn. rewrite C5, G2. now apply lookup_insert_ne.
        -- rewrite C5, lookup_insert_eq. cbn [UID]. repeat split; congruence.
      * split; [intros; congruence | split; [congruence | left; congruence]].
Qed.

(** The request [approveCSR] returns and the request it leaves stored. *)
Lemma approveCSR_effect (csr : CertificateSigningRequest) (w w' : World)
    (r : outcome CertificateSigningRequest) :
  approveCSR csr w = (r, w') ->
  nextUID w' = nextUID w
  /\ (forall n, n <> Name csr -> csrs w' !! n = csrs w !! n)
  /\ match r with
     | Ret csr' =>
         csr' = mkCSR (Name csr) (UID csr) (Labels csr) (Spec csr)
                  (mkStatus (Conditions (Status csr)
                             ++ [mkCondition CertificateApproved "AutoApproved"
                                   "Auto approved by TiDB Operator"])
                            (Certificate (Status csr)))
         /\ exists old,
              csrs w !! Name csr = Some old
              /\ csrs w' !! Name csr
                 = Some (mkCSR (Name old) (UID old) (Labels old) (Spec old)
                           (mkStatus (Conditions (Status csr')) (Certificate (Status old))))
     | Fail err =>
         csrs w' = csrs w
         /\ exists cause, err = Errorf ("error updating approval for csr: " +:+ Error cause)
     | _ => False
     end.
Proof.
  unfold approveCSR, bind, orElse, ret.
  destruct (CSR_UpdateApproval _ w) as [r0 w1] eqn:U.
  unfold CSR_UpdateApproval, bind in U. cbn [Name Status Conditions] in U.
  destruct (backend w) as [[[]|err|msg|] w0] eqn:B;
    apply backend_inv in B as ((H1 & H2 & H3 & H4 & H5) & Hg & [(E & Hs & Hf) | (m & E & Hf)]);
    try discriminate.
  - destruct (csrs w0 !! Name csr) as [old|] eqn:L; injection U as <- <-;
      intros [= <- <-]; wsimpl; (split; [assumption |]).
    + split; [intros n Hn; rewrite lookup_insert_ne by congruence; congruence |].
      split; [reflexivity |]. exists old. rewrite <- H2. split; [assumption |].
      now rewrite lookup_insert_eq.
    + split; [intros; congruence |]. split; [assumption |].
      exists (NewNotFound "certificatesigningrequests" (Name csr)). reflexivity.
  - injection U as <- <-. intros [= <- <-]. split; [assumption |].
    split; [intros; congruence |]. split; [assumption | eauto].
Qed.

(** What [Create_submit] leaves behind. *)
Lemma Create_submit_effect (fuel : nat) (ns instance commonName : string)
    (hostList IPList : list string) (csrName : string) (w w' : World)
    (r : outcome (CertificateSigningRequest * bytes * list occurrence)) :
  Create_submit env fuel ns instance commonName hostList IPList csrName w = (r, w') ->
  secrets w' = secrets w
  /\ keysDrawn w' = S (keysDrawn w)
  /\ (forall n, n <> csrName -> csrs w' !! n = csrs w !! n)
  /\ ((nextUID w' = nextUID w
       /\ (csrs w' = csrs w \/ csrs w' = delete csrName (csrs w))
       /\ forall x, r <> Ret x)
      \/ (nextUID w' = S (nextUID w)
          /\ (exists stored, csrs w' !! csrName = Some stored /\ UID stored = nextUID w)
          /\ forall csr key watchCh, r = Ret (csr, key, watchCh) ->
               UID csr = nextUID w /\ Name csr = csrName
               /\ Conditions (Status csr)
                  = [mkCondition CertificateApproved "AutoApproved"
                       "Auto approved by TiDB Operator"])).
Proof.
  intros H. pose proof (Create_submit_frame env _ _ _ _ _ _ _ _ _ _ H) as F.
  split; [assumption |]. revert H. rewrite Create_submit_step.
  destruct (NewCSR env commonName hostList IPList w) as [r1 w1] eqn:N.
  apply NewCSR_inv in N as (_ & N2 & N3 & _ & _ & _ & N7 & N8).
  destruct N8 as [(generated & ->) | (err & ->)].
  2: { intros [= <- <-]. split; [assumption |]. split; [intros; congruence |]. left.
       split; [assumption |]. split; [auto | discriminate]. }
  destruct (sendCSR env fuel ns instance (fst generated) csrName w1) as [r2 w2] eqn:HS.
  pose proof (sendCSR_frame env _ _ _ _ _ _ _ _ HS) as (_ & S2 & _).
  pose proof (sendCSR_effect _ _ _ _ _ _ _ _ HS) as (S3 & S4).
  assert (Hfail : forall e : outcome (CertificateSigningRequest * bytes * list occurrence),
             (forall x, e <> Ret x) ->
             nextUID w2 = nextUID w1 ->
             csrs w2 = csrs w1 \/ csrs w2 = delete csrName (csrs w1) ->
             (e, w2) = (r, w') ->
             keysDrawn w' = S (keysDrawn w)
             /\ (forall n, n <> csrName -> csrs w' !! n = csrs w !! n)
             /\ ((nextUID w' = nextUID w
                  /\ (csrs w' = csrs w \/ csrs w' = delete csrName (csrs w))
                  /\ forall x, r <> Ret x) \/
                 (nextUID w' = S (nextUID w)
                  /\ (exists stored, csrs w' !! csrName = Some stored
                                     /\ UID stored = nextUID w)
                  /\ forall csr key watchCh, r = Ret (csr, key, watchCh) ->
                       UID csr = nextUID w /\ Name csr = csrName
                       /\ Conditions (Status csr)
                          = [mkCondition CertificateApproved "AutoApproved"
                               "Auto approved by TiDB Operator"]))).
  { intros e He Hn Hc [= <- <-]. split; [congruence |].
    split; [intros n Hne; rewrite S3 by assumption; congruence |]. left.
    split; [congruence |]. split; [| assumption].
    destruct Hc as [Hc | Hc]; rewrite Hc, N2; auto. }
  destruct r2 as [resp|err|msg|];
    try (destruct S4 as (S4 & S5); apply Hfail; [discriminate | assumption | assumption]).
  destruct S4 as (S4 & S5 & S6).
  pose proof (sendCSR_Ret env _ _ _ _ _ _ _ _ HS) as (_ & Sname & Scond).
  destruct (approveCSR resp w2) as [r3 w3] eqn:A.
  pose proof (approveCSR_inv _ _ _ _ A) as (_ & _ & A3 & _).
  apply approveCSR_effect in A as (A1 & A2 & A4). rewrite Sname in A2, A4.
  assert (Hstored : exists stored,
             csrs w3 !! csrName = Some stored /\ UID stored = nextUID w).
  { destruct r3 as [csr'|err|msg|]; [| | contradiction | contradiction].
    - destruct A4 as (_ & old & L & L'). rewrite S4 in L. injection L as <-.
      eexists. split; [exact L' |]. cbn. congruence.
    - destruct A4 as (-> & _). exists resp. split; [assumption | congruence]. }
  assert (Hother : forall n, n <> csrName -> csrs w3 !! n = csrs w !! n).
  { intros n Hn. rewrite A2, S3 by assumption. congruence. }
  destruct r3 as [csr'|err|msg|]; [| | contradiction | contradiction].
  - destruct A4 as (-> & _).
    destruct (CSR_Watch csrName (60 * 5) w3) as [r4 w4] eqn:W.
    apply CSR_Watch_inv in W as (_ & W2 & W3 & W4 & _ & _).
    destruct r4 as [watchCh|err|msg|]; intros [= <- <-]; wsimpl;
      (split; [congruence |]); (split; [intros n Hn; rewrite W2; auto |]); right;
      (split; [congruence |]); rewrite W2; (split; [assumption |]);
      intros csr key watchCh' [=]; subst; cbn.
    rewrite Scond. repeat split; congruence.
  - intros [= <- <-]. split; [congruence |]. split; [assumption |]. right.
    split; [congruence |]. split; [assumption | discriminate].
Qed.

(** What the loop of [Create] leaves behind: nothing but the log, or one
    new secret holding the certificate of an accepted event and the key,
    and then, when it returns success, the request deleted. *)
Lemma Create_loop_effect (ns instance component suffix csrName : string)
    (csr : CertificateSigningRequest) (key : bytes) (timeline : list occurrence) :
  forall (tick : bool) (w w' : World) (r : outcome unit),
    Create_loop env ns instance component suffix csrName csr key tick timeline w = (r, w') ->
    nextUID w' = nextUID w /\ keysDrawn w' = keysDrawn w
    /\ ((secrets w' = secrets w /\ csrs w' = csrs w /\ r <> Ret tt)
        \/ (exists event certificate secret,
               In (Event event) timeline
               /\ examine csr event = Proceed certificate
               /\ secrets w !! (ns, instance +:+ "-" +:+ suffix) = None
               /\ data_get (Data secret) "cert" = certificate
               /\ data_get (Data secret) "key" = key
               /\ secrets w' = <[(ns, instance +:+ "-" +:+ suffix) := secret]> (secrets w)
               /\ ((r = Ret tt /\ is_Some (csrs w !! csrName)
                    /\ csrs w' = delete csrName (csrs w))
                   \/ (csrs w' = csrs w /\ r <> Ret tt)))).
Proof.
  induction timeline as [|o timeline IH]; intros tick w w' r.
  - cbn. intros [= <- <-]. repeat split. left. repeat split. discriminate.
  - assert (Hnext : forall tick0 w0,
               nextUID w0 = nextUID w -> keysDrawn w0 = keysDrawn w ->
               secrets w0 = secrets w -> csrs w0 = csrs w ->
               Create_loop env ns instance component suffix csrName csr key tick0 timeline w0
               = (r, w') ->
               nextUID w' = nextUID w /\ keysDrawn w' = keysDrawn w
               /\ ((secrets w' = secrets w /\ csrs w' = csrs w /\ r <> Ret tt)
                   \/ (exists event certificate secret,
                          In (Event event) (o :: timeline)
                          /\ examine csr event = Proceed certificate
                          /\ secrets w !! (ns, instance +:+ "-" +:+ suffix) = None
                          /\ data_get (Data secret) "cert" = certificate
                          /\ data_get (Data secret) "key" = key
                          /\ secrets w'
                             = <[(ns, instance +:+ "-" +:+ suffix) := secret]> (secrets w)
                          /\ ((r = Ret tt /\ is_Some (csrs w !! csrName)
                               /\ csrs w' = delete csrName (csrs w))
                              \/ (csrs w' = csrs w /\ r <> Ret tt))))).
    { intros tick0 w0 E1 E2 E3 E4 H. apply IH in H as (H1 & H2 & H3).
      rewrite E1 in H1. rewrite E2 in H2. rewrite E3, E4 in H3.
      split; [assumption | split; [assumption |]].
      destruct H3 as [H3 | (event & certificate & secret & Hin & H3)]; [left; assumption |].
      right. exists event, certificate, secret. split; [now right | assumption]. }
    destruct o as [|event].
    + cbn [Create_loop]. destruct tick; [| now apply Hnext].
      unfold bind, glog_Infof. now apply Hnext.
    + destruct (examine csr event) as [| certificate | |] eqn:E.
      * cbn [Create_loop]. rewrite E. now apply Hnext.
      * rewrite (Create_loop_proceed _ _ _ _ _ _ _ _ _ _ _ certificate) by assumption.
        destruct (SaveToSecret env ns instance component suffix certificate key _)
          as [r1 w1] eqn:S.
        apply SaveToSecret_inv in S as (S1 & S2 & S3 & _ & S5). wsimpl.
        destruct S5 as [(-> & _ & Snone & secret & _ & Sc & Sk & Ss) | (err & -> & Ss)].
        -- intros D. apply CSR_Delete_inv in D as (D1 & D2 & D3 & _ & _ & D6).
           split; [congruence | split; [congruence |]]. right.
           exists event, certificate, secret. split; [now left |].
           repeat (split; [first [assumption | congruence] |]).
           destruct D6 as [(-> & _ & _ & D7 & D8) | (err & -> & D8)].
           ++ left. rewrite S1 in D7, D8. auto.
           ++ right. split; [congruence | discriminate].
        -- intros [= <- <-]. split; [assumption | split; [assumption |]]. left.
           split; [assumption | split; [assumption | discriminate]].
      * cbn [Create_loop]. rewrite E. intros [= <- <-]. repeat split. left.
        repeat split. discriminate.
      * cbn [Create_loop]. rewrite E. intros [= <- <-]. repeat split. left.
        repeat split. discriminate.
Qed.

End SubmissionEffects.

(** X7. [approveCSR] hands back the request with one condition more, the
    approval, after the conditions it had, and the same identity and name;
    the stored request then carries these conditions.  It touches no other
    request, and when the request is not stored any more it returns an
    error and stores nothing. *)
Theorem approveCSR_appends_the_approval (csr : CertificateSigningRequest) (w : World) :
  (forall csr',
      fst (approveCSR csr w) = Ret csr' ->
      Conditions (Status csr')
      = (Conditions (Status csr)
         ++ [mkCondition CertificateApproved "AutoApproved"
               "Auto approved by TiDB Operator"])%list
      /\ UID csr' = UID csr /\ Name csr' = Name csr
      /\ (Conditions ∘ Status) <$> csrs (snd (approveCSR csr w)) !! Name csr
         = Some (Conditions (Status csr')))
  /\ (csrs w !! Name csr = None ->
      (exists err, fst (approveCSR csr w) = Fail err)
      /\ csrs (snd (approveCSR csr w)) = csrs w)
  /\ (forall n, n <> Name csr -> csrs (snd (approveCSR csr w)) !! n = csrs w !! n).
Proof.
  destruct (approveCSR csr w) as [r w'] eqn:A.
  apply approveCSR_effect in A as (_ & A2 & A3). cbn [fst snd].
  split; [| split; [| assumption]].
  - intros csr' ->. destruct A3 as (-> & old & _ & L). rewrite L. cbn. auto.
  - intros N. destruct r as [csr'|err|msg|]; [| | contradiction | contradiction].
    + destruct A3 as (_ & old & L & _). congruence.
    + destruct A3 as (A3 & _). eauto.
Qed.

(** X8. [sendCSR] touches no request under another name.  When it
    returns a request, that request is stored under the name and has the
    next identity the server gives out; when it does not, no identity was
    given out and the entry under the name is as it was or deleted. *)
Theorem sendCSR_touches_one_name
    (env : Env) (fuel : nat) (ns instance : string) (rawCSR : bytes) (csrName : string)
    (w : World) :
  (forall n, n <> csrName ->
     csrs (snd (sendCSR env fuel ns instance rawCSR csrName w)) !! n = csrs w !! n)
  /\ (forall resp,
        fst (sendCSR env fuel ns instance rawCSR csrName w) = Ret resp ->
        csrs (snd (sendCSR env fuel ns instance rawCSR csrName w)) !! csrName = Some resp
        /\ UID resp = nextUID w
        /\ nextUID (snd (sendCSR env fuel ns instance rawCSR csrName w)) = S (nextUID w))
  /\ ((forall resp, fst (sendCSR env fuel ns instance rawCSR csrName w) <> Ret resp) ->
      nextUID (snd (sendCSR env fuel ns instance rawCSR csrName w)) = nextUID w
      /\ (csrs (snd (sendCSR env fuel ns instance rawCSR csrName w)) = csrs w
          \/ csrs (snd (sendCSR env fuel ns instance rawCSR csrName w))
             = delete csrName (csrs w))).
Proof.
  destruct (sendCSR env fuel ns instance rawCSR csrName w) as [r w'] eqn:HS.
  apply sendCSR_effect in HS as (H1 & H2). cbn [fst snd].
  split; [assumption | split].
  - intros resp ->. assumption.
  - intros H. destruct r as [resp|err|msg|]; [exfalso; eapply H; reflexivity | | |];
      assumption.
Qed.

(** X18. The index of the loop is out of range exactly for an event that
    has a condition but fewer conditions than the request at hand, or when
    the request at hand has none. *)
Theorem examine_index_out_of_range
    (csr : CertificateSigningRequest) (event : WatchEvent) :
  examine csr event = IndexOutOfRange <->
  exists updatedCSR,
    Object event = CSRObject updatedCSR
    /\ Conditions (Status updatedCSR) <> []
    /\ (length (Conditions (Status csr)) = 0
        \/ length (Conditions (Status updatedCSR)) < length (Conditions (Status csr))).
Proof.
  unfold examine, index.
  destruct (Object event) as [updatedCSR | message];
    [| split; [discriminate | intros (u & [=] & _)]].
  assert (G : forall P : CertificateSigningRequest -> Prop,
             (exists u, CSRObject updatedCSR = CSRObject u /\ P u) <-> P updatedCSR).
  { intros P. split; [intros (u & [= <-] & H); exact H | eauto]. }
  rewrite (G (fun u => Conditions (Status u) <> []
                       /\ (length (Conditions (Status csr)) = 0
                           \/ length (Conditions (Status u))
                              < length (Conditions (Status csr))))).
  destruct (Conditions (Status updatedCSR)) as [|cond rest] eqn:Hc; cbn [length Nat.eqb].
  - split; [discriminate | intros (H & _); contradiction].
  - cbv zeta. destruct (length (Conditions (Status csr))) as [|n] eqn:Hn.
    + cbn. split; [intros _; split; [discriminate | auto] | reflexivity].
    + replace (Z.of_nat (S n) - 1 <? 0)%Z with false by (symmetry; apply Z.ltb_ge; lia).
      replace (Z.to_nat (Z.of_nat (S n) - 1)) with n by lia.
      destruct ((cond :: rest) !! n) as [c|] eqn:L.
      * apply lookup_lt_Some in L. cbn [length] in L.
        split; [| intros (_ & [H | H]); [discriminate | lia]].
        destruct (Nat.eqb (UID updatedCSR) (UID csr) && String.eqb (Type_ c) CertificateApproved);
          [destruct (Certificate (Status updatedCSR)) |]; discriminate.
      * apply lookup_ge_None in L. cbn [length] in L.
        split; [intros _; split; [discriminate | right; lia] | reflexivity].
Qed.

(** ** What a call of [Create] changes *)

Section CreateEffects.

Context (env : Env).

Lemma CSR_Watch_head (name : string) (timeout : Z) (w w' : World) (t : list occurrence) :
  CSR_Watch name timeout w = (Ret t, w') -> t = hd [] (timelines w).
Proof.
  unfold CSR_Watch, bind. destruct (backend w) as [[[]|err|msg|] w1] eqn:B;
    apply backend_inv in B as ((_ & _ & _ & _ & H5) & _ & _); try discriminate.
  rewrite <- H5. destruct (timelines w1); intros [= <- _]; reflexivity.
Qed.

(** The key and the timeline [Create] enters its loop with: the key is
    the PEM of the key drawn in this call, the timeline the next one the
    watches of the world hold. *)
Lemma Create_submit_key (fuel : nat) (ns instance commonName : string)
    (hostList IPList : list string) (csrName : string) (w w' : World)
    (csr : CertificateSigningRequest) (key : bytes) (watchCh : list occurrence) :
  Create_submit env fuel ns instance commonName hostList IPList csrName w
  = (Ret (csr, key, watchCh), w') ->
  watchCh = hd [] (timelines w)
  /\ exists privKey,
       rsa_GenerateKey env (keysDrawn w) rsaKeySize = inl privKey
       /\ key = convertKeyToPEM env "RSA PRIVATE KEY" privKey.
Proof.
  rewrite Create_submit_step.
  destruct (NewCSR env commonName hostList IPList w) as [r1 w1] eqn:N.
  pose proof (NewCSR_inv env _ _ _ _ _ _ N) as (_ & _ & _ & _ & N5 & _).
  unfold NewCSR, bind, newPrivateKey in N.
  destruct (rsa_GenerateKey env (keysDrawn w) rsaKeySize) as [privKey|err] eqn:K.
  2: { injection N as <- <-. discriminate. }
  destruct (x509_CreateCertificateRequest env _ privKey) as [der|err].
  2: { injection N as <- <-. discriminate. }
  injection N as <- _. cbn [fst snd].
  destruct (sendCSR env fuel ns instance der csrName w1) as [r2 w2] eqn:HS.
  apply sendCSR_frame in HS as (_ & _ & S3).
  destruct r2 as [resp|err|msg|]; try discriminate.
  destruct (approveCSR resp w2) as [r3 w3] eqn:A.
  apply approveCSR_inv in A as (_ & _ & _ & A4 & _).
  destruct r3 as [csr'|err|msg|]; try discriminate.
  destruct (CSR_Watch csrName (60 * 5) w3) as [r4 w4] eqn:W.
  destruct r4 as [t|err|msg|]; try discriminate.
  apply CSR_Watch_head in W. intros [= <- <- <- <-].
  split; [congruence | eauto].
Qed.

Lemma sendCSR_no_panic (fuel : nat) (ns instance : string) (rawCSR : bytes)
    (csrName : string) :
  forall (w : World) (msg : string),
    fst (sendCSR env fuel ns instance rawCSR csrName w) <> Panic msg.
Proof.
  induction fuel as [|fuel IH]; intros w msg; [cbn; discriminate |].
  rewrite sendCSR_step. cbv zeta.
  destruct (getCSR env ns instance csrName w) as [r w1] eqn:G.
  apply getCSR_inv in G
    as (_ & _ & [(_ & _ & [(c & -> & _) | [(-> & _) | (c & err & -> & _)]])
                 | (_ & err & ->)]); try discriminate.
  - destruct (CSR_Delete csrName _) as [r1 w2] eqn:D.
    apply CSR_Delete_inv in D as (_ & _ & _ & _ & _ & [(-> & _) | (err & -> & _)]);
      [apply IH | discriminate].
  - destruct (CSR_Create _ w1) as [r1 w2] eqn:C.
    apply CSR_Create_inv in C as (_ & _ & _ & _ & [(_ & _ & _ & -> & _) | (err & -> & _)]);
      discriminate.
Qed.

(** The loop panics only where its type assertion fails. *)
Lemma Create_loop_panic (ns instance component suffix csrName : string)
    (csr : CertificateSigningRequest) (key : bytes) (timeline : list occurrence) :
  length (Conditions (Status csr)) = 1 ->
  forall (tick : bool) (w : World) (msg : string),
    fst (Create_loop env ns instance component suffix csrName csr key tick timeline w)
    = Panic msg ->
    msg = interfaceConversion
    /\ exists event message,
         In (Event event) timeline /\ Object event = StatusObject message.
Proof.
  intros Hlen. induction timeline as [|o timeline IH]; intros tick w msg.
  - cbn. discriminate.
  - assert (Hnext : forall tick0 w0,
               fst (Create_loop env ns instance component suffix csrName csr key tick0
                      timeline w0) = Panic msg ->
               msg = interfaceConversion
               /\ exists event message,
                    In (Event event) (o :: timeline) /\ Object event = StatusObject message).
    { intros tick0 w0 H. apply IH in H as (H1 & event & message & H2 & H3).
      split; [assumption |]. exists event, message. split; [now right | assumption]. }
    destruct o as [|event].
    + cbn [Create_loop]. destruct tick; [| apply Hnext].
      unfold bind, glog_Infof. apply Hnext.
    + pose proof (examine_in_range csr event Hlen) as Hr.
      destruct (examine csr event) as [| certificate | |] eqn:E; [| | contradiction |].
      * cbn [Create_loop]. rewrite E. apply Hnext.
      * rewrite (Create_loop_proceed _ _ _ _ _ _ _ _ _ _ _ certificate) by assumption.
        destruct (SaveToSecret env ns instance component suffix certificate key _)
          as [r w1] eqn:HS.
        apply SaveToSecret_inv in HS as (_ & _ & _ & _ & [(-> & _) | (err & -> & _)]);
          [| discriminate].
        destruct (CSR_Delete csrName w1) as [r2 w2] eqn:D.
        apply CSR_Delete_inv in D as (_ & _ & _ & _ & _ & [(-> & _) | (err & -> & _)]);
          discriminate.
      * cbn [Create_loop]. rewrite E. cbn. intros [= <-]. split; [reflexivity |].
        apply examine_InterfaceConversion in E as (message & E).
        exists event, message. split; [now left | assumption].
Qed.

(** All that a call of [Create] can change. *)
Lemma Create_effect (fuel : nat) (ns instance commonName : string)
    (hostList IPList : list string) (component suffix : string) (w w' : World)
    (r : outcome unit) :
  Create env fuel ns instance commonName hostList IPList component suffix w = (r, w') ->
  keysDrawn w' <= S (keysDrawn w) /\ nextUID w' <= S (nextUID w)
  /\ nextUID w <= nextUID w'
  /\ (forall n, n <> csrNameOf instance suffix -> csrs w' !! n = csrs w !! n)
  /\ (secrets w' = secrets w
      \/ (secrets w !! (ns, instance +:+ "-" +:+ suffix) = None
          /\ exists secret,
               secrets w' = <[(ns, instance +:+ "-" +:+ suffix) := secret]> (secrets w))).
Proof.
  rewrite Create_step. cbv zeta.
  pose proof (CheckSecret_frame env ns (csrNameOf instance suffix) w) as (C1 & C2 & C3 & C4 & _).
  destruct (CheckSecret env ns (csrNameOf instance suffix) w) as [[|] w1]; cbn [snd] in *.
  - intros [= <- <-]. wsimpl. rewrite C3, C4.
    repeat split; [lia | lia | lia | intros; congruence | left; assumption].
  - destruct (Create_submit env fuel ns instance commonName hostList IPList _ w1)
      as [r1 w2] eqn:HS.
    apply Create_submit_effect in HS as (S1 & S2 & S3 & S4).
    assert (Hn : nextUID w1 <= nextUID w2 <= S (nextUID w1))
      by (destruct S4 as [(S4 & _) | (S4 & _)]; lia).
    destruct r1 as [[[csr key] watchCh]|err|msg|];
      try (intros [= <- <-]; repeat split;
           [lia | lia | lia | intros n Hne; rewrite S3 by assumption; congruence
            | left; congruence]).
    intros L. apply Create_loop_effect in L as (L1 & L2 & L3).
    repeat split; [lia | lia | lia | |].
    + intros n Hne.
      destruct L3 as [(_ & L3 & _) | (_ & _ & _ & _ & _ & _ & _ & _ & _ & [(_ & _ & L3) | (L3 & _)])];
        rewrite L3; try rewrite lookup_delete_ne by congruence;
        rewrite S3 by assumption; congruence.
    + destruct L3 as [(L3 & _) | (_ & _ & secret & _ & _ & L3 & _ & _ & L4 & _)].
      * left. congruence.
      * right. rewrite S1, C1 in L3, L4. eauto.
Qed.

(** A call that passed the secret check and returns success has had a
    request created, has written the secret and has deleted the request. *)
Lemma Create_Ret_writes (fuel : nat) (ns instance commonName : string)
    (hostList IPList : list string) (component suffix : string) (w w' : World) :
  fst (CheckSecret env ns (csrNameOf instance suffix) w) = false ->
  Create env fuel ns instance commonName hostList IPList component suffix w = (Ret tt, w') ->
  secrets w !! (ns, instance +:+ "-" +:+ suffix) = None
  /\ (exists secret,
        secrets w' = <[(ns, instance +:+ "-" +:+ suffix) := secret]> (secrets w))
  /\ csrs w' !! csrNameOf instance suffix = None
  /\ nextUID w' = S (nextUID w)
  /\ keysDrawn w' = S (keysDrawn w).
Proof.
  intros F. rewrite Create_step. cbv zeta.
  pose proof (CheckSecret_frame env ns (csrNameOf instance suffix) w)
    as (C1 & _ & C3 & C4 & _).
  destruct (CheckSecret env ns (csrNameOf instance suffix) w) as [b w1].
  cbn in F, C1, C3, C4. subst b.
  destruct (Create_submit env fuel ns instance commonName hostList IPList _ w1)
    as [[[[csr key] watchCh]|err|msg|] w2] eqn:HS; try discriminate.
  apply Create_submit_effect in HS as (S1 & S2 & _ & [(_ & _ & S4) | (S3 & _)]).
  { exfalso. eapply S4. reflexivity. }
  intros L. apply Create_loop_effect in L
    as (L1 & L2 & [(_ & _ & L3)
                   | (event & certificate & secret & _ & _ & Hn & _ & _ & Hs
                      & [(_ & _ & Hd) | (_ & L3)])]); try congruence.
  rewrite S1, C1 in Hn, Hs.
  split; [assumption |]. split; [eauto |].
  split; [rewrite Hd; apply lookup_delete_eq |]. split; congruence.
Qed.

End CreateEffects.

(** ** C10: the name written and the name checked *)

(** C10. [SaveToSecret] stores the secret under instance, a hyphen and the
    suffix, whatever the suffix: it succeeds exactly when the backend
    serves the call and that name is free, and then that name is the one
    added.  [Create] with the empty suffix checks the secret named by the
    instance alone: when that check passes the call returns success and
    the cluster is as it was.  When the check fails and the call returns
    success, the request it had created and has deleted was named by the
    instance alone, and the secret it has added is the one named instance
    and hyphen, which is another name; the secret under the name checked is
    as it was, so the same check fails again on the state the call leaves
    behind. *)
Theorem secret_name_written_is_not_name_checked
    (env : Env) (fuel : nat) (ns instance commonName : string)
    (hostList IPList : list string) (component : string) (w w' : World) :
  (forall suffix cert key,
      (fst (SaveToSecret env ns instance component suffix cert key w) = Ret tt
       <-> served w /\ secrets w !! (ns, instance +:+ "-" +:+ suffix) = None)
      /\ (fst (SaveToSecret env ns instance component suffix cert key w) = Ret tt ->
          exists secret,
            secretName secret = instance +:+ "-" +:+ suffix
            /\ secrets (snd (SaveToSecret env ns instance component suffix cert key w))
               = <[(ns, instance +:+ "-" +:+ suffix) := secret]> (secrets w)))
  /\ (fst (CheckSecret env ns instance w) = true ->
      fst (Create env fuel ns instance commonName hostList IPList component "" w) = Ret tt
      /\ same_cluster w
           (snd (Create env fuel ns instance commonName hostList IPList component "" w)))
  /\ (fst (CheckSecret env ns instance w) = false ->
      Create env fuel ns instance commonName hostList IPList component "" w = (Ret tt, w') ->
      secrets w !! (ns, instance +:+ "-") = None
      /\ (exists secret, secrets w' = <[(ns, instance +:+ "-") := secret]> (secrets w))
      /\ (ns, instance) <> (ns, instance +:+ "-")
      /\ secrets w' !! (ns, instance) = secrets w !! (ns, instance)
      /\ csrs w' !! instance = None
      /\ nextUID w' = S (nextUID w)
      /\ (served w -> fst (CheckSecret env ns instance w') = false)).
Proof.
  assert (Hne : (ns, instance) <> (ns, instance +:+ "-")).
  { intros [= H]. exact (string_app_hyphen_neq instance H). }
  split; [| split].
  - intros suffix cert key. split; [split |].
    + destruct (SaveToSecret env ns instance component suffix cert key w) as [r w1] eqn:S.
      cbn [fst]. intros ->.
      apply SaveToSecret_inv in S
        as (_ & _ & _ & _ & [(_ & Hs & L & _) | (err & [=] & _)]). auto.
    + intros (Hs & L). now apply SaveToSecret_served.
    + destruct (SaveToSecret env ns instance component suffix cert key w) as [r w1] eqn:S.
      cbn [fst snd]. intros ->.
      apply SaveToSecret_inv in S
        as (_ & _ & _ & _ & [(_ & _ & _ & secret & Hn & _ & _ & E) | (err & [=] & _)]).
      eauto.
  - intros T. rewrite Create_step. cbv zeta.
    change (csrNameOf instance "") with instance.
    pose proof (CheckSecret_frame env ns instance w) as F.
    destruct (CheckSecret env ns instance w) as [b w1]. cbn in T, F. subst b.
    cbn [fst snd]. split; [reflexivity |].
    destruct F as (F1 & F2 & F3 & F4 & F5). repeat split; assumption.
  - intros F C.
    destruct (Create_Ret_writes env fuel ns instance commonName hostList IPList component
                "" w w' F C) as (Hn & (secret & Hs) & Hd & Hu & _).
    change (instance +:+ "-" +:+ "") with (instance +:+ "-") in Hn, Hs.
    change (csrNameOf instance "") with instance in Hd.
    assert (Hsame : secrets w' !! (ns, instance) = secrets w !! (ns, instance)).
    { rewrite Hs. apply lookup_insert_ne. congruence. }
    repeat (split; [first [assumption | eauto] |]).
    intros Hserved.
    destruct (fst (CheckSecret env ns instance w')) eqn:T; [| reflexivity].
    apply CheckSecret_true in T as (_ & s0 & L & V).
    assert (T' : fst (CheckSecret env ns instance w) = true).
    { apply CheckSecret_true. split; [assumption |]. exists s0.
      split; [congruence | assumption]. }
    congruence.
Qed.

(** X9. [Create] never changes or removes a secret that exists: every
    secret stored before the call is stored unchanged after it, and the
    only name under which the call can add one is instance, hyphen,
    suffix. *)
Theorem Create_keeps_existing_secrets
    (env : Env) (fuel : nat) (ns instance commonName : string)
    (hostList IPList : list string) (component suffix : string) (w : World) :
  (forall k old,
      secrets w !! k = Some old ->
      secrets (snd (Create env fuel ns instance commonName hostList IPList component suffix w))
      !! k = Some old)
  /\ (forall k,
        k <> (ns, instance +:+ "-" +:+ suffix) ->
        secrets (snd (Create env fuel ns instance commonName hostList IPList component
                        suffix w)) !! k
        = secrets w !! k).
Proof.
  destruct (Create env fuel ns instance commonName hostList IPList component suffix w)
    as [r w'] eqn:C.
  apply Create_effect in C as (_ & _ & _ & _ & [E | (N & secret & E)]); cbn [snd];
    rewrite E; split; intros k; try tauto.
  - intros old L. rewrite lookup_insert_ne; [assumption | congruence].
  - intros Hk. now rewrite lookup_insert_ne.
Qed.

(** X10. [Create] touches no request but the one under the derived name. *)
Theorem Create_touches_one_request
    (env : Env) (fuel : nat) (ns instance commonName : string)
    (hostList IPList : list string) (component suffix : string) (w : World) (n : string) :
  n <> csrNameOf instance suffix ->
  csrs (snd (Create env fuel ns instance commonName hostList IPList component suffix w)) !! n
  = csrs w !! n.
Proof.
  intros Hn.
  destruct (Create env fuel ns instance commonName hostList IPList component suffix w)
    as [r w'] eqn:C.
  apply Create_effect in C as (_ & _ & _ & C4 & _). now apply C4.
Qed.

(** X11. One call of [Create] draws at most one key and has at most one
    request created; a call that ends at the secret check draws and
    creates none. *)
Theorem Create_draws_at_most_one_key
    (env : Env) (fuel : nat) (ns instance commonName : string)
    (hostList IPList : list string) (component suffix : string) (w : World) :
  keysDrawn w
  <= keysDrawn (snd (Create env fuel ns instance commonName hostList IPList component suffix w))
  <= S (keysDrawn w)
  /\ nextUID w
     <= nextUID (snd (Create env fuel ns instance commonName hostList IPList component
                        suffix w))
     <= S (nextUID w)
  /\ (fst (CheckSecret env ns (csrNameOf instance suffix) w) = true ->
      same_cluster w
        (snd (Create env fuel ns instance commonName hostList IPList component suffix w))).
Proof.
  pose proof (Create_step env fuel ns instance commonName hostList IPList component suffix w)
    as St. cbv zeta in St.
  pose proof (CheckSecret_frame env ns (csrNameOf instance suffix) w) as F.
  destruct (Create env fuel ns instance commonName hostList IPList component suffix w)
    as [r w'] eqn:C.
  pose proof (Create_effect env _ _ _ _ _ _ _ _ _ _ _ C) as (E1 & E2 & E3 & _).
  cbn [snd]. split; [| split; [lia |]].
  - split; [| assumption].
    destruct (CheckSecret env ns (csrNameOf instance suffix) w) as [[|] w1]; cbn [snd] in F;
      destruct F as (_ & _ & _ & F4 & _).
    + injection St as _ ->. wsimpl. lia.
    + destruct (Create_submit env fuel ns instance commonName hostList IPList _ w1)
        as [r1 w2] eqn:HS.
      apply Create_submit_effect in HS as (_ & S2 & _).
      destruct r1 as [[[csr key] watchCh]|err|msg|]; try (injection St as _ ->; lia).
      symmetry in St. apply Create_loop_effect in St as (_ & L2 & _). lia.
  - intros T. destruct (CheckSecret env ns (csrNameOf instance suffix) w) as [b w1].
    cbn in T. subst b. injection St as _ ->.
    destruct F as (F1 & F2 & F3 & F4 & F5). repeat split; assumption.
Qed.

Lemma examine_Proceed (csr : CertificateSigningRequest) (event : WatchEvent)
    (certificate : bytes) :
  examine csr event = Proceed certificate ->
  exists updatedCSR,
    Object event = CSRObject updatedCSR
    /\ UID updatedCSR = UID csr
    /\ Certificate (Status updatedCSR) = Some certificate.
Proof.
  unfold examine. destruct (Object event) as [updatedCSR | message]; [| discriminate].
  destruct (Nat.eqb (length (Conditions (Status updatedCSR))) 0); [discriminate |].
  cbv zeta. destruct (index _ _) as [cond|]; [| discriminate].
  destruct (Nat.eqb (UID updatedCSR) (UID csr)) eqn:U; [| discriminate].
  destruct (String.eqb (Type_ cond) CertificateApproved); [| discriminate]. cbn [andb].
  destruct (Certificate (Status updatedCSR)) as [c|] eqn:Hcert; [| discriminate].
  intros [= ->]. apply Nat.eqb_eq in U. exists updatedCSR. auto.
Qed.

Lemma NewCSR_depends_on_draws (env : Env) (commonName : string)
    (hostList IPList : list string) (w w1 : World) :
  keysDrawn w1 = keysDrawn w ->
  fst (NewCSR env commonName hostList IPList w1) = fst (NewCSR env commonName hostList IPList w).
Proof.
  intros E. unfold NewCSR, bind, newPrivateKey. rewrite E.
  destruct (rsa_GenerateKey env (keysDrawn w) rsaKeySize) as [privKey|err]; [| reflexivity].
  destruct (x509_CreateCertificateRequest env _ privKey); reflexivity.
Qed.

(** X12. A call of [Create] that did not end at the secret check and
    returns success has drawn one key, leaves no request under the derived
    name, and has stored a secret under instance, hyphen, suffix that holds
    the PEM of the key drawn in this call and the certificate of an event
    of its watch about the request created in this call. *)
Theorem Create_success_stores_and_deletes
    (env : Env) (fuel : nat) (ns instance commonName : string)
    (hostList IPList : list string) (component suffix : string) (w w' : World) :
  fst (CheckSecret env ns (csrNameOf instance suffix) w) = false ->
  Create env fuel ns instance commonName hostList IPList component suffix w = (Ret tt, w') ->
  csrs w' !! csrNameOf instance suffix = None
  /\ keysDrawn w' = S (keysDrawn w)
  /\ exists secret privKey event updatedCSR,
       secrets w' !! (ns, instance +:+ "-" +:+ suffix) = Some secret
       /\ rsa_GenerateKey env (keysDrawn w) rsaKeySize = inl privKey
       /\ data_get (Data secret) "key" = convertKeyToPEM env "RSA PRIVATE KEY" privKey
       /\ In (Event event) (hd [] (timelines w))
       /\ Object event = CSRObject updatedCSR
       /\ UID updatedCSR = nextUID w
       /\ Certificate (Status updatedCSR) = Some (data_get (Data secret) "cert").
Proof.
  intros F. rewrite Create_step. cbv zeta.
  pose proof (CheckSecret_frame env ns (csrNameOf instance suffix) w) as (_ & _ & C3 & C4 & C5).
  destruct (CheckSecret env ns (csrNameOf instance suffix) w) as [b w1].
  cbn in F, C3, C4, C5. subst b.
  destruct (Create_submit env fuel ns instance commonName hostList IPList _ w1)
    as [[[[csr key] watchCh]|err|msg|] w2] eqn:HS; try discriminate.
  pose proof (Create_submit_key env _ _ _ _ _ _ _ _ _ _ _ _ HS) as (-> & privKey & K1 & ->).
  apply Create_submit_effect in HS as (_ & S2 & _ & [(_ & _ & S4) | (_ & _ & S4)]).
  { exfalso. eapply S4. reflexivity. }
  destruct (S4 _ _ _ eq_refl) as (U & _ & _).
  intros L. apply Create_loop_effect in L
    as (_ & L2 & [(_ & _ & L3)
                  | (event & certificate & secret & Hin & E & _ & Dc & Dk & Hs
                     & [(_ & _ & Hd) | (_ & L3)])]); try congruence.
  apply examine_Proceed in E as (updatedCSR & E0 & E1 & E2).
  split; [rewrite Hd; apply lookup_delete_eq |]. split; [congruence |].
  exists secret, privKey, event, updatedCSR. rewrite Hs, lookup_insert_eq.
  repeat split; congruence.
Qed.

(** X13. A call of [Create] that had a request created and does not
    return success leaves that request stored: it does not clean up after
    a failed approval, watch, wait, persistence or deletion. *)
Theorem Create_failure_leaves_its_request
    (env : Env) (fuel : nat) (ns instance commonName : string)
    (hostList IPList : list string) (component suffix : string) (w w' : World)
    (r : outcome unit) :
  Create env fuel ns instance commonName hostList IPList component suffix w = (r, w') ->
  r <> Ret tt ->
  nextUID w' = S (nextUID w) ->
  exists stored,
    csrs w' !! csrNameOf instance suffix = Some stored /\ UID stored = nextUID w.
Proof.
  rewrite Create_step. cbv zeta.
  pose proof (CheckSecret_frame env ns (csrNameOf instance suffix) w) as (_ & _ & C3 & _).
  destruct (CheckSecret env ns (csrNameOf instance suffix) w) as [[|] w1]; cbn in C3.
  - intros [= <- <-] H. contradiction.
  - destruct (Create_submit env fuel ns instance commonName hostList IPList _ w1)
      as [r1 w2] eqn:HS.
    apply Create_submit_effect in HS
      as (_ & _ & _ & [(S1 & _ & S4) | (S1 & (stored & S2 & S3) & _)]).
    + destruct r1 as [[[csr key] watchCh]|err|msg|];
        [exfalso; eapply S4; reflexivity | | |]; intros [= <- <-] _ H; lia.
    + intros H Hr _. exists stored. rewrite <- C3, <- S3. split; [| reflexivity].
      destruct r1 as [[[csr key] watchCh]|err|msg|];
        try (injection H as _ <-; assumption).
      apply Create_loop_effect in H
        as (_ & _ & [(_ & L & _) | (_ & _ & _ & _ & _ & _ & _ & _ & _ & [(L & _) | (L & _)])]);
        [congruence | contradiction | congruence].
Qed.

(** X14. The request [Create] enters its loop with has the identity the
    server gave out in this call, so the loop passes over every event about
    a resource of another identity, such as an older request of the same
    name. *)
Theorem Create_loop_skips_other_identities
    (env : Env) (fuel : nat) (ns instance commonName : string)
    (hostList IPList : list string) (csrName : string) (w w' : World)
    (csr : CertificateSigningRequest) (key : bytes) (watchCh : list occurrence) :
  Create_submit env fuel ns instance commonName hostList IPList csrName w
  = (Ret (csr, key, watchCh), w') ->
  UID csr = nextUID w
  /\ forall event updatedCSR,
       Object event = CSRObject updatedCSR ->
       UID updatedCSR <> nextUID w -> examine csr event = Skip.
Proof.
  intros HS.
  apply Create_submit_effect in HS as (_ & _ & _ & [(_ & _ & S4) | (_ & _ & S4)]).
  { exfalso. eapply S4. reflexivity. }
  destruct (S4 _ _ _ eq_refl) as (U & _ & Hc). split; [assumption |].
  intros event updatedCSR Ho Hu.
  assert (Hlen : length (Conditions (Status csr)) = 1) by now rewrite Hc.
  pose proof (examine_in_range csr event Hlen) as Hr.
  destruct (examine csr event) as [| certificate | |] eqn:E;
    [reflexivity | | contradiction |].
  - apply examine_Proceed in E as (u & E0 & E1 & _). congruence.
  - apply examine_InterfaceConversion in E as (message & E). congruence.
Qed.

(** X16. When the generation of the key or of the request fails,
    [Create] returns that error behind the namespace and the derived name,
    and has changed neither secrets nor requests. *)
Theorem Create_reports_failed_generation
    (env : Env) (fuel : nat) (ns instance commonName : string)
    (hostList IPList : list string) (component suffix : string) (w : World) (err : error) :
  fst (CheckSecret env ns (csrNameOf instance suffix) w) = false ->
  fst (NewCSR env commonName hostList IPList w) = Fail err ->
  fst (Create env fuel ns instance commonName hostList IPList component suffix w)
  = Fail (Errorf ("fail to generate new key and certificate for " +:+ ns +:+ "/"
                  +:+ csrNameOf instance suffix +:+ ", " +:+ Error err))
  /\ secrets (snd (Create env fuel ns instance commonName hostList IPList component suffix w))
     = secrets w
  /\ csrs (snd (Create env fuel ns instance commonName hostList IPList component suffix w))
     = csrs w
  /\ nextUID (snd (Create env fuel ns instance commonName hostList IPList component suffix w))
     = nextUID w.
Proof.
  intros F N. rewrite Create_step. cbv zeta.
  pose proof (CheckSecret_frame env ns (csrNameOf instance suffix) w) as (C1 & C2 & C3 & C4 & _).
  destruct (CheckSecret env ns (csrNameOf instance suffix) w) as [b w1].
  cbn in F, C1, C2, C3, C4. subst b.
  rewrite Create_submit_step.
  rewrite <- (NewCSR_depends_on_draws env commonName hostList IPList w w1 C4) in N.
  destruct (NewCSR env commonName hostList IPList w1) as [r1 w2] eqn:HN.
  apply NewCSR_inv in HN as (N1 & N2 & N3 & _). cbn in N. subst r1. cbn.
  repeat split; congruence.
Qed.

(** X17. [Create] panics at one place only, the type assertion of its
    loop on an event whose object is no request (lines 114 and 118): when it
    panics, the message is that of the failed conversion and its watch
    delivered such an event.  The index of line 119 never panics inside
    [Create]: the request it enters its loop with has exactly one
    condition, so the index is in range for every event that passed the
    length test. *)
Theorem Create_panics_only_at_type_assertion
    (env : Env) (fuel : nat) (ns instance commonName : string)
    (hostList IPList : list string) (component suffix : string) (w : World) (msg : string) :
  fst (Create env fuel ns instance commonName hostList IPList component suffix w) = Panic msg ->
  msg = interfaceConversion
  /\ exists event message,
       In (Event event) (hd [] (timelines w)) /\ Object event = StatusObject message.
Proof.
  rewrite Create_step. cbv zeta.
  pose proof (CheckSecret_frame env ns (csrNameOf instance suffix) w) as (_ & _ & _ & _ & C5).
  destruct (CheckSecret env ns (csrNameOf instance suffix) w) as [[|] w1];
    [discriminate |]. cbn [snd] in C5.
  destruct (Create_submit env fuel ns instance commonName hostList IPList _ w1)
    as [r1 w2] eqn:HS.
  destruct r1 as [[[csr key] watchCh]|err|m|]; try discriminate.
  - pose proof (Create_submit_key env _ _ _ _ _ _ _ _ _ _ _ _ HS) as (Ht & _).
    apply Create_submit_Ret in HS as (Hc & _). rewrite <- C5, <- Ht.
    apply Create_loop_panic. now rewrite Hc.
  - exfalso. rewrite Create_submit_step in HS.
    destruct (NewCSR env commonName hostList IPList w1) as [r0 w0] eqn:N.
    apply NewCSR_inv in N as (_ & _ & _ & _ & _ & _ & _ & [(g & ->) | (e & ->)]);
      [| discriminate].
    destruct (sendCSR env fuel ns instance (fst g) (csrNameOf instance suffix) w0)
      as [[resp|e|m'|] w3] eqn:HSend; try discriminate.
    + destruct (approveCSR resp w3) as [r3 w4] eqn:A.
      apply approveCSR_effect in A as (_ & _ & A3).
      destruct r3 as [c|e|m'|]; try discriminate; try contradiction.
      destruct (CSR_Watch _ _ w4) as [r4 w5] eqn:W.
      apply CSR_Watch_inv in W as (_ & _ & _ & _ & _ & [(t & ->) | (e & ->)]); discriminate.
    + eapply (sendCSR_no_panic env fuel ns instance (fst g) (csrNameOf instance suffix) w0).
      rewrite HSend. reflexivity.
Qed.

(** X19. [NewCSR] takes one draw from the random source, whether it
    succeeds or not, and changes nothing else.  It returns a request and a
    key exactly when the key generation and the request creation both
    succeed, and the key is then the PKCS#1 PEM of the key drawn. *)
Theorem NewCSR_draws_one_key
    (env : Env) (commonName : string) (hostList IPList : list string) (w : World) :
  keysDrawn (snd (NewCSR env commonName hostList IPList w)) = S (keysDrawn w)
  /\ secrets (snd (NewCSR env commonName hostList IPList w)) = secrets w
  /\ csrs (snd (NewCSR env commonName hostList IPList w)) = csrs w
  /\ faults (snd (NewCSR env commonName hostList IPList w)) = faults w
  /\ glog (snd (NewCSR env commonName hostList IPList w)) = glog w
  /\ (forall csr key,
        fst (NewCSR env commonName hostList IPList w) = Ret (csr, key)
        <-> exists privKey,
              rsa_GenerateKey env (keysDrawn w) rsaKeySize = inl privKey
              /\ x509_CreateCertificateRequest env
                   (csrTemplate env commonName hostList IPList) privKey = inl csr
              /\ key = convertKeyToPEM env "RSA PRIVATE KEY" privKey)
  /\ DNSNames (csrTemplate env commonName hostList IPList) = hostList
  /\ CommonName (Subject (csrTemplate env commonName hostList IPList)) = commonName.
Proof.
  destruct (NewCSR env commonName hostList IPList w) as [r w'] eqn:N.
  pose proof (NewCSR_inv env _ _ _ _ _ _ N) as (N1 & N2 & _ & N4 & _ & N6 & N7 & _).
  cbn [fst snd]. repeat (split; [assumption |]). split; [| split; reflexivity].
  intros csr key. unfold NewCSR, bind, newPrivateKey in N.
  destruct (rsa_GenerateKey env (keysDrawn w) rsaKeySize) as [privKey|err] eqn:K.
  - destruct (x509_CreateCertificateRequest env _ privKey) as [der|err] eqn:C;
      injection N as <- _; split.
    + intros [= <- <-]. eauto.
    + intros (p & [= <-] & C' & ->). rewrite C in C'. now injection C' as <-.
    + discriminate.
    + intros (p & [= <-] & C' & _). congruence.
  - injection N as <- _. split; [discriminate | intros (p & [=] & _)].
Qed.

(** X20. A request that [sendCSR] stored is replaced when [sendCSR] runs
    again for the same namespace and instance on a backend that serves its
    calls: the new request has the next identity and is the one stored
    under the name. *)
Theorem sendCSR_again_replaces
    (env : Env) (fuel : nat) (ns instance : string) (rawCSR rawCSR' : bytes)
    (csrName : string) (w w1 : World) (resp : CertificateSigningRequest) :
  distinct_label_keys env ->
  sendCSR env fuel ns instance rawCSR csrName w = (Ret resp, w1) ->
  faults w1 = [] ->
  exists resp2 w2,
    sendCSR env 2 ns instance rawCSR' csrName w1 = (Ret resp2, w2)
    /\ UID resp2 = S (UID resp)
    /\ csrs w2 !! csrName = Some resp2.
Proof.
  intros Hk HS F.
  pose proof (sendCSR_Ret_owned env fuel ns instance rawCSR csrName resp Hk w w1 HS) as O.
  apply sendCSR_effect in HS as (_ & L & U & N).
  destruct (sendCSR_stale env ns instance rawCSR' csrName w1 resp L O F) as (w2 & E & C & _).
  eexists _, w2. split; [exact E |]. cbn [UID]. split; [congruence |].
  rewrite C. apply lookup_insert_eq.
Qed.

(** ** Runs for the further properties *)

(** A secret saved in the empty cluster is read back. *)
Lemma SaveToSecret_then_LoadFromSecret_run :
  fst (LoadFromSecret "db" ("pd-0" +:+ "-" +:+ "peer")
         (snd (SaveToSecret (labEnv true) "db" "pd-0" "pd" "peer" signedCert [Byte.x01]
                 emptyWorld)))
  = Ret (signedCert, [Byte.x01]).
Proof.
  apply (SaveToSecret_then_LoadFromSecret (labEnv true) "db" "pd-0" "pd" "peer"
           signedCert [Byte.x01] emptyWorld).
  - vm_compute. reflexivity.
  - vm_compute. exact I.
Defined.

Lemma labEnv_distinct_label_keys (rootsReadable : bool) :
  distinct_label_keys (labEnv rootsReadable).
Proof. repeat split; discriminate. Qed.

(** The request that replaced the stale one is found again as this
    system's own. *)
Lemma sendCSR_then_getCSR_run :
  owned (labEnv true) "db" "pd-0" requestSent = true
  /\ fst (getCSR (labEnv true) "db" "pd-0" "pd-0-peer"
            (snd (sendCSR (labEnv true) 2 "db" "pd-0" [Byte.x10; Byte.x01] "pd-0-peer"
                    worldStale)))
     = Ret (Some requestSent).
Proof.
  apply (sendCSR_then_getCSR (labEnv true) 2 "db" "pd-0" [Byte.x10; Byte.x01] "pd-0-peer"
           worldStale).
  - apply labEnv_distinct_label_keys.
  - vm_compute. reflexivity.
  - vm_compute. exact I.
Defined.

(** A request built for [pd-0] is not [tikv-3]'s. *)
Lemma newRequest_owned_only_by_its_instance_run :
  owned (labEnv true) "db" "tikv-3" (newRequest (labEnv true) "db" "pd-0" [] "pd-0-peer")
  = true
  <-> "db" = "db" /\ "tikv-3" = "pd-0".
Proof.
  apply (newRequest_owned_only_by_its_instance (labEnv true) "db" "pd-0" "db" "tikv-3" []
           "pd-0-peer").
  apply labEnv_distinct_label_keys.
Defined.

(** The resource of a watch event of the laboratory has no labels. *)
Lemma owned_without_labels_run :
  owned (labEnv true) "db" "pd-0" (requestSeen "pd-0-peer" 0 [] None) = true
  <-> "db" = "" /\ "pd-0" = ""
      /\ label_get (label_New (labEnv true)) (ManagedByLabelKey (labEnv true)) = "".
Proof.
  apply (owned_without_labels (labEnv true) "db" "pd-0"
           (requestSeen "pd-0-peer" 0 [] None)).
  reflexivity.
Defined.

(** The request of another name is as it was after a call for
    [pd-0-peer]. *)
Lemma Create_touches_one_request_run :
  csrs (snd (runPd0 (labEnv true) "peer" worldNeighbour)) !! "tikv-3-peer"
  = csrs worldNeighbour !! "tikv-3-peer".
Proof.
  apply (Create_touches_one_request (labEnv true) 2 "db" "pd-0" "pd-0.db.svc"
           ["pd-0.db.svc"] ["10.0.0.5"] "pd" "peer" worldNeighbour "tikv-3-peer").
  vm_compute. discriminate.
Defined.

(** The request that replaced the stale one is replaced in turn. *)
Lemma sendCSR_again_replaces_run :
  exists resp2 w2,
    sendCSR (labEnv true) 2 "db" "pd-0" [Byte.x11] "pd-0-peer"
      (snd (sendCSR (labEnv true) 2 "db" "pd-0" [Byte.x10; Byte.x01] "pd-0-peer" worldStale))
    = (Ret resp2, w2)
    /\ UID resp2 = S (UID requestSent)
    /\ csrs w2 !! "pd-0-peer" = Some resp2.
Proof.
  apply (sendCSR_again_replaces (labEnv true) 2 "db" "pd-0" [Byte.x10; Byte.x01] [Byte.x11]
           "pd-0-peer" worldStale).
  - apply labEnv_distinct_label_keys.
  - vm_compute. reflexivity.
  - vm_compute. reflexivity.
Defined.

(** The successful run of the scenario. *)
Lemma Create_success_stores_and_deletes_run :
  csrs (snd (runPd0 (labEnv true) "peer" worldSigned)) !! csrNameOf "pd-0" "peer" = None
  /\ keysDrawn (snd (runPd0 (labEnv true) "peer" worldSigned)) = S (keysDrawn worldSigned)
  /\ exists secret privKey event updatedCSR,
       secrets (snd (runPd0 (labEnv true) "peer" worldSigned))
       !! ("db", "pd-0" +:+ "-" +:+ "peer") = Some secret
       /\ rsa_GenerateKey (labEnv true) (keysDrawn worldSigned) rsaKeySize = inl privKey
       /\ data_get (Data secret) "key"
          = convertKeyToPEM (labEnv true) "RSA PRIVATE KEY" privKey
       /\ In (Event event) (hd [] (timelines worldSigned))
       /\ Object event = CSRObject updatedCSR
       /\ UID updatedCSR = nextUID worldSigned
       /\ Certificate (Status updatedCSR) = Some (data_get (Data secret) "cert").
Proof.
  apply (Create_success_stores_and_deletes (labEnv true) 2 "db" "pd-0" "pd-0.db.svc"
           ["pd-0.db.svc"] ["10.0.0.5"] "pd" "peer" worldSigned).
  - vm_compute. reflexivity.
  - vm_compute. reflexivity.
Defined.

(** The run in which the watch closes leaves the request it created. *)
Lemma Create_failure_leaves_its_request_run :
  exists stored,
    csrs (snd (runPd0 (labEnv true) "peer" worldSilent)) !! csrNameOf "pd-0" "peer"
    = Some stored
    /\ UID stored = nextUID worldSilent.
Proof.
  apply (Create_failure_leaves_its_request (labEnv true) 2 "db" "pd-0" "pd-0.db.svc"
           ["pd-0.db.svc"] ["10.0.0.5"] "pd" "peer" worldSilent
           (snd (runPd0 (labEnv true) "peer" worldSilent))
           (fst (runPd0 (labEnv true) "peer" worldSilent))).
  - apply surjective_pairing.
  - vm_compute. discriminate.
  - vm_compute. reflexivity.
Defined.

(** In the scenario the request at hand has identity 0. *)
Lemma Create_loop_skips_other_identities_run :
  UID requestAtHand = nextUID emptyWorld
  /\ forall event updatedCSR,
       Object event = CSRObject updatedCSR ->
       UID updatedCSR <> nextUID emptyWorld -> examine requestAtHand event = Skip.
Proof.
  apply (Create_loop_skips_other_identities (labEnv true) 2 "db" "pd-0" "pd-0.db.svc"
           ["pd-0.db.svc"] ["10.0.0.5"] "pd-0-peer" emptyWorld
           (snd (submitPd0 emptyWorld)) requestAtHand [Byte.x01] []).
  vm_compute. reflexivity.
Defined.

(** The call with the empty suffix: checked is [pd-0], written is [pd-0-]. *)
Lemma secret_name_written_is_not_name_checked_run :
  secrets worldSignedBare !! ("db", "pd-0" +:+ "-") = None
  /\ (exists secret,
        secrets (snd (runPd0 (labEnv true) "" worldSignedBare))
        = <[("db", "pd-0" +:+ "-") := secret]> (secrets worldSignedBare))
  /\ ("db", "pd-0") <> ("db", "pd-0" +:+ "-")
  /\ secrets (snd (runPd0 (labEnv true) "" worldSignedBare)) !! ("db", "pd-0")
     = secrets worldSignedBare !! ("db", "pd-0")
  /\ csrs (snd (runPd0 (labEnv true) "" worldSignedBare)) !! "pd-0" = None
  /\ nextUID (snd (runPd0 (labEnv true) "" worldSignedBare)) = S (nextUID worldSignedBare)
  /\ (served worldSignedBare ->
      fst (CheckSecret (labEnv true) "db" "pd-0"
             (snd (runPd0 (labEnv true) "" worldSignedBare))) = false).
Proof.
  apply (proj2 (proj2 (secret_name_written_is_not_name_checked (labEnv true) 2 "db" "pd-0"
                         "pd-0.db.svc" ["pd-0.db.svc"] ["10.0.0.5"] "pd" worldSignedBare
                         (snd (runPd0 (labEnv true) "" worldSignedBare))))).
  - vm_compute. reflexivity.
  - vm_compute. reflexivity.
Defined.

(** The watch of the scenario reports an error: the call panics. *)
Lemma Create_panics_only_at_type_assertion_run :
  interfaceConversion = interfaceConversion
  /\ exists event message,
       In (Event event) (hd [] (timelines worldError))
       /\ Object event = StatusObject message.
Proof.
  apply (Create_panics_only_at_type_assertion (labEnv true) 2 "db" "pd-0" "pd-0.db.svc"
           ["pd-0.db.svc"] ["10.0.0.5"] "pd" "peer" worldError interfaceConversion).
  vm_compute. reflexivity.
Defined.

(** With a random source that fails, [Create] reports it and changes
    nothing. *)
Lemma Create_reports_failed_generation_run :
  fst (runPd0 noEntropyEnv "peer" worldSigned)
  = Fail (Errorf ("fail to generate new key and certificate for " +:+ "db" +:+ "/"
                  +:+ csrNameOf "pd-0" "peer" +:+ ", "
                  +:+ Error (Errorf "crypto/rand: unexpected EOF")))
  /\ secrets (snd (runPd0 noEntropyEnv "peer" worldSigned)) = secrets worldSigned
  /\ csrs (snd (runPd0 noEntropyEnv "peer" worldSigned)) = csrs worldSigned
  /\ nextUID (snd (runPd0 noEntropyEnv "peer" worldSigned)) = nextUID worldSigned.
Proof.
  apply (Create_reports_failed_generation noEntropyEnv 2 "db" "pd-0" "pd-0.db.svc"
           ["pd-0.db.svc"] ["10.0.0.5"] "pd" "peer" worldSigned
           (Errorf "crypto/rand: unexpected EOF")).
  - vm_compute. reflexivity.
  - vm_compute. reflexivity.
Defined.
